(** * StockMate Pro: keyword merge engine, scoring, JSON coercion and
      platform configuration lookup.

    Shallow embedding of [src/stockmate_pro.py], [src/stockmate.py] and
    [src/config.py].  Python [str] is modelled as a Rocq [string] whose
    characters are ASCII; [str.strip], [str.lower] and [len] follow
    CPython on that range.  Python floats are modelled as exact
    rationals [Q]; [np.mean] of an empty list is the NaN of [pyfloat]. *)

From Stdlib Require Import String Ascii List ZArith QArith Qminmax Qabs Lia Lqa Bool Sorted.
Import ListNotations.
Open Scope string_scope.
Open Scope list_scope.

(* ================================================================= *)
(** ** Python string primitives on ASCII *)

Module PyStr.

(** Characters for which [str.isspace] holds in the ASCII range:
    space, \t \n \x0b \x0c \r and the separators \x1c-\x1f. *)
Definition is_space (c : ascii) : bool :=
  let n := nat_of_ascii c in
  (n =? 32)%nat || ((9 <=? n) && (n <=? 13))%nat
  || ((28 <=? n) && (n <=? 31))%nat.

Fixpoint lstrip_l (l : list ascii) : list ascii :=
  match l with
  | [] => []
  | c :: r => if is_space c then lstrip_l r else l
  end.

Definition rstrip_l (l : list ascii) : list ascii :=
  rev (lstrip_l (rev l)).

(** [s.strip()] *)
Definition strip (s : string) : string :=
  string_of_list_ascii (rstrip_l (lstrip_l (list_ascii_of_string s))).

Definition lower_char (c : ascii) : ascii :=
  let n := nat_of_ascii c in
  if ((65 <=? n) && (n <=? 90))%nat then ascii_of_nat (n + 32) else c.

(** [s.lower()] *)
Fixpoint lower (s : string) : string :=
  match s with
  | EmptyString => EmptyString
  | String c r => String (lower_char c) (lower r)
  end.

(** [x in xs] for a list of strings *)
Definition mem (x : string) (xs : list string) : bool :=
  existsb (String.eqb x) xs.

End PyStr.

(* ================================================================= *)
(** ** config.py *)

Module Config.

(** [MIN_KEYWORD_LENGTH] and [MAX_KEYWORD_LENGTH] with the environment
    variables unset (their defaults in config.py). *)
Definition MIN_KEYWORD_LENGTH : nat := 3.
Definition MAX_KEYWORD_LENGTH : nat := 30.

Record PlatformConfig := {
  max_keywords : Z;
  max_title_length : Z;
  max_description_length : Z;
  required_keywords : list string;
  forbidden_words : list string;
  categories : list string
}.

Definition shutterstock : PlatformConfig := {|
  max_keywords := 50; max_title_length := 200; max_description_length := 1000;
  required_keywords := ["stock"; "photo"];
  forbidden_words := ["shutterstock"; "watermark"; "copyright"];
  categories := ["Abstract"; "Animals/Wildlife"; "Arts"; "Backgrounds/Textures";
    "Beauty/Fashion"; "Buildings/Landmarks"; "Business/Finance";
    "Celebrities"; "Education"; "Food and Drink"; "Healthcare/Medical";
    "Holidays"; "Industrial"; "Interiors"; "Miscellaneous"; "Nature";
    "Objects"; "Parks/Outdoor"; "People"; "Religion"; "Science";
    "Signs/Symbols"; "Sports/Recreation"; "Technology"; "Transportation";
    "Travel"; "Vintage"]
|}.

Definition adobe_stock : PlatformConfig := {|
  max_keywords := 49; max_title_length := 200; max_description_length := 1000;
  required_keywords := [];
  forbidden_words := ["adobe"; "stock"; "watermark"];
  categories := ["Animals"; "Architecture"; "Arts"; "Beauty"; "Business";
    "Education"; "Food"; "Health"; "Industrial"; "Lifestyle";
    "Nature"; "People"; "Places"; "Science"; "Sports"; "Technology";
    "Transportation"; "Travel"]
|}.

Definition getty_images : PlatformConfig := {|
  max_keywords := 50; max_title_length := 150; max_description_length := 800;
  required_keywords := [];
  forbidden_words := ["getty"; "watermark"];
  categories := ["News"; "Sports"; "Entertainment"; "Archival"; "Creative"]
|}.

(** [PLATFORM_CONFIGS] as an association list in dict order. *)
Definition PLATFORM_CONFIGS : list (string * PlatformConfig) :=
  [("shutterstock", shutterstock); ("adobe_stock", adobe_stock);
   ("getty_images", getty_images)].

Fixpoint dict_get {A} (k : string) (d : list (string * A)) : option A :=
  match d with
  | [] => None
  | (k', v) :: r => if String.eqb k k' then Some v else dict_get k r
  end.

(** [get_platform_config]:
    [PLATFORM_CONFIGS.get(platform.lower(), PLATFORM_CONFIGS["shutterstock"])] *)
Definition get_platform_config (platform : string) : PlatformConfig :=
  match dict_get (PyStr.lower platform) PLATFORM_CONFIGS with
  | Some c => c
  | None => shutterstock
  end.

(** [TRENDING_KEYWORDS], in dict order. *)
Definition TRENDING_KEYWORDS : list (string * list string) :=
  [("business", ["remote work"; "digital transformation"; "sustainability";
      "artificial intelligence"; "teamwork"; "leadership";
      "innovation"; "startup"; "entrepreneur"; "meeting"]);
   ("lifestyle", ["wellness"; "mindfulness"; "work-life balance"; "healthy eating";
      "exercise"; "family time"; "social media"; "minimalism";
      "eco-friendly"; "mental health"]);
   ("technology", ["AI"; "machine learning"; "cloud computing"; "cybersecurity";
      "blockchain"; "IoT"; "5G"; "virtual reality"; "automation";
      "digital nomad"]);
   ("nature", ["climate change"; "renewable energy"; "biodiversity";
      "conservation"; "sustainable living"; "organic farming";
      "green technology"; "carbon neutral"; "eco-tourism"])].

(** [MARKET_TRENDS["high_demand"]] *)
Definition MARKET_TRENDS_high_demand : list string :=
  ["remote work"; "sustainability"; "diversity"; "mental health";
   "AI technology"; "electric vehicles"; "plant-based"; "minimalism"].

End Config.

(* ================================================================= *)
(** ** The [Meta] dataclass of stockmate_pro.py and its keyword merge *)

Module Pro.

Record Meta := {
  title : string;
  description : string;
  keywords_en : list string;
  keywords_zh : list string;
  category : string;
  subcategory : string;
  mood_tags : list string;
  style_tags : list string;
  color_tags : list string;
  technical_tags : list string;
  trending_keywords : list string;
  seo_score : Q;
  market_potential : string
}.

(** [Meta(title, description, keywords_en, keywords_zh)] with the
    dataclass defaults for every other field. *)
Definition mk_meta (t d : string) (en zh : list string) : Meta := {|
  title := t; description := d; keywords_en := en; keywords_zh := zh;
  category := ""; subcategory := ""; mood_tags := []; style_tags := [];
  color_tags := []; technical_tags := []; trending_keywords := [];
  seo_score := 0; market_potential := "Medium" |}.

(** The per-keyword rejection test of the loop body:
    [not kw or len(kw) < MIN_KEYWORD_LENGTH or len(kw) > MAX_KEYWORD_LENGTH]. *)
Definition rejected (kw : string) : bool :=
  (String.length kw =? 0)%nat
  || (String.length kw <? Config.MIN_KEYWORD_LENGTH)%nat
  || (Config.MAX_KEYWORD_LENGTH <? String.length kw)%nat.

(** Outcome of the inner [for kw in keyword_list] loop: the function
    either returned from inside the loop or the loop ran to the end. *)
Inductive loop_result :=
| Return (optimized : list string)
| Continue (seen : list string) (optimized : list string).

Fixpoint scan_pool (pool : list string) (seen optimized : list string)
    (max_keywords : Z) : loop_result :=
  match pool with
  | [] => Continue seen optimized
  | kw0 :: rest =>
      let kw := PyStr.strip kw0 in
      if rejected kw then scan_pool rest seen optimized max_keywords
      else
        let kw_lower := PyStr.lower kw in
        if PyStr.mem kw_lower seen then scan_pool rest seen optimized max_keywords
        else
          let seen' := kw_lower :: seen in
          let optimized' := optimized ++ [kw] in
          if (max_keywords <=? Z.of_nat (length optimized'))%Z
          then Return optimized'
          else scan_pool rest seen' optimized' max_keywords
  end.

(** The outer [for keyword_list in priority_lists] loop. *)
Fixpoint scan_pools (pools : list (list string)) (seen optimized : list string)
    (max_keywords : Z) : list string :=
  match pools with
  | [] => optimized
  | p :: ps =>
      match scan_pool p seen optimized max_keywords with
      | Return o => o
      | Continue s o => scan_pools ps s o max_keywords
      end
  end.

Definition priority_lists (self : Meta) : list (list string) :=
  [ self.(trending_keywords);
    firstn 10 self.(keywords_en);
    self.(mood_tags) ++ self.(style_tags);
    self.(color_tags);
    self.(technical_tags) ].

(** [Meta._dedupe_and_optimize(self, keywords, max_keywords)]: note that
    the body never reads [keywords]. *)
Definition _dedupe_and_optimize (self : Meta) (keywords : list string)
    (max_keywords : Z) : list string :=
  scan_pools (priority_lists self) [] [] max_keywords.

(** [Meta.merged_keywords(self, lang_pref, max_keywords=50)] *)
Definition merged_keywords (self : Meta) (lang_pref : string)
    (max_keywords : Z) : list string :=
  let all_keywords :=
    if String.eqb lang_pref "en" then
      self.(keywords_en) ++ self.(trending_keywords) ++ self.(mood_tags)
        ++ self.(style_tags) ++ self.(color_tags)
    else if String.eqb lang_pref "zh" then self.(keywords_zh)
    else
      self.(keywords_en) ++ self.(trending_keywords) ++ self.(keywords_zh)
        ++ self.(mood_tags) ++ self.(style_tags) ++ self.(color_tags) in
  _dedupe_and_optimize self all_keywords max_keywords.

End Pro.

(* ================================================================= *)
(** ** Enrichment in [EnhancedAIGenerator] (stockmate_pro.py) *)

Module Enrich.
Import Pro.
Local Open Scope Q_scope.

Record ImageAnalysis := {
  dominant_colors : list string;
  brightness : Q;
  contrast : Q;
  composition : string;
  style : string;
  mood : string;
  objects : list string;
  scene_type : string;
  technical_quality : Q
}.

(** [s.split()]: split on runs of whitespace, no empty pieces. *)
Fixpoint split_ws_l (l : list ascii) (cur : list ascii) : list string :=
  match l with
  | [] => match cur with [] => [] | _ => [string_of_list_ascii (rev cur)] end
  | c :: r =>
      if PyStr.is_space c then
        match cur with
        | [] => split_ws_l r []
        | _ => string_of_list_ascii (rev cur) :: split_ws_l r []
        end
      else split_ws_l r (c :: cur)
  end.

Definition split_ws (s : string) : list string :=
  split_ws_l (list_ascii_of_string s) [].

(** [sub in s] for strings. *)
Fixpoint contains (sub s : string) : bool :=
  String.prefix sub s ||
  match s with
  | EmptyString => false
  | String _ r => contains sub r
  end.

(** [any(word in kw.lower() for word in trending.lower().split())] *)
Definition trend_hit (kw trending : string) : bool :=
  existsb (fun word => contains word (PyStr.lower kw))
          (split_ws (PyStr.lower trending)).

(** The double loop counting [relevance_score] for one category. *)
Definition relevance_score (keywords trending_words : list string) : nat :=
  fold_left (fun acc kw =>
    fold_left (fun acc' trending => if trend_hit kw trending then S acc' else acc')
              trending_words acc)
    keywords 0%nat.

(** [_get_relevant_trending_keywords(keywords, analysis)] *)
Definition _get_relevant_trending_keywords (keywords : list string)
    (analysis : ImageAnalysis) : list string :=
  let relevant_trending :=
    fold_left (fun acc '(_, trending_words) =>
      if (0 <? relevance_score keywords trending_words)%nat
      then acc ++ firstn 3 trending_words else acc)
      Config.TRENDING_KEYWORDS [] in
  firstn 5 relevant_trending.

Definition in_range (lo hi n : nat) : bool := (lo <=? n)%nat && (n <=? hi)%nat.

(** [_calculate_seo_score(meta, analysis)], the running [score] written
    out step by step.  The sums are exact rationals; Python's floats
    round each step (0.4 + 0.2 gives 0.6000000000000001), so only
    bounds with room for that rounding carry over to the program. *)
Definition _calculate_seo_score (meta : Meta) (analysis : ImageAnalysis) : Q :=
  let score : Q := 0 in
  let score := if in_range 30 60 (String.length meta.(title))
               then score + (1#5) else score in
  let score := if in_range 100 200 (String.length meta.(description))
               then score + (1#5) else score in
  let total_keywords := length (merged_keywords meta "en,zh" 50) in
  let score := if in_range 20 50 total_keywords then score + (1#5) else score in
  let score := match meta.(trending_keywords) with
               | [] => score | _ => score + (1#5) end in
  let score := score + analysis.(technical_quality) * (1#5) in
  Qmin score 1.

(** The five components of the score, listed as the spec states them
    (the refinement target of [_calculate_seo_score]). *)
Definition seo_components (meta : Meta) (analysis : ImageAnalysis) : list Q :=
  [ if in_range 30 60 (String.length meta.(title)) then 1#5 else 0;
    if in_range 100 200 (String.length meta.(description)) then 1#5 else 0;
    if in_range 20 50 (length (merged_keywords meta "en,zh" 50)) then 1#5 else 0;
    match meta.(trending_keywords) with [] => 0 | _ => 1#5 end;
    analysis.(technical_quality) * (1#5) ].

(** [_assess_market_potential(meta, analysis)] *)
Definition _assess_market_potential (meta : Meta) (analysis : ImageAnalysis) : string :=
  if Qle_bool (4#5) meta.(seo_score) && Qle_bool (4#5) analysis.(technical_quality)
  then "High"
  else if Qle_bool (3#5) meta.(seo_score) && Qle_bool (3#5) analysis.(technical_quality)
  then "Medium"
  else "Low".

(** [_generate_technical_tags(analysis)] *)
Definition _generate_technical_tags (analysis : ImageAnalysis) : list string :=
  (if Qle_bool (4#5) analysis.(technical_quality) then ["high resolution"] else [])
  ++ (if Qlt_le_dec (7#10) analysis.(brightness) then ["bright lighting"]
      else if Qlt_le_dec analysis.(brightness) (3#10) then ["low light"] else [])
  ++ (if Qlt_le_dec (7#10) analysis.(contrast) then ["high contrast"] else []).

Definition set_trending (m : Meta) (v : list string) : Meta :=
  {| title := m.(title); description := m.(description);
     keywords_en := m.(keywords_en); keywords_zh := m.(keywords_zh);
     category := m.(category); subcategory := m.(subcategory);
     mood_tags := m.(mood_tags); style_tags := m.(style_tags);
     color_tags := m.(color_tags); technical_tags := m.(technical_tags);
     trending_keywords := v; seo_score := m.(seo_score);
     market_potential := m.(market_potential) |}.

Definition set_seo_score (m : Meta) (v : Q) : Meta :=
  {| title := m.(title); description := m.(description);
     keywords_en := m.(keywords_en); keywords_zh := m.(keywords_zh);
     category := m.(category); subcategory := m.(subcategory);
     mood_tags := m.(mood_tags); style_tags := m.(style_tags);
     color_tags := m.(color_tags); technical_tags := m.(technical_tags);
     trending_keywords := m.(trending_keywords); seo_score := v;
     market_potential := m.(market_potential) |}.

Definition set_market_potential (m : Meta) (v : string) : Meta :=
  {| title := m.(title); description := m.(description);
     keywords_en := m.(keywords_en); keywords_zh := m.(keywords_zh);
     category := m.(category); subcategory := m.(subcategory);
     mood_tags := m.(mood_tags); style_tags := m.(style_tags);
     color_tags := m.(color_tags); technical_tags := m.(technical_tags);
     trending_keywords := m.(trending_keywords); seo_score := m.(seo_score);
     market_potential := v |}.

Definition set_technical_tags (m : Meta) (v : list string) : Meta :=
  {| title := m.(title); description := m.(description);
     keywords_en := m.(keywords_en); keywords_zh := m.(keywords_zh);
     category := m.(category); subcategory := m.(subcategory);
     mood_tags := m.(mood_tags); style_tags := m.(style_tags);
     color_tags := m.(color_tags); technical_tags := v;
     trending_keywords := m.(trending_keywords); seo_score := m.(seo_score);
     market_potential := m.(market_potential) |}.

(** [_enhance_with_seo(meta, analysis, platform)]: the in-place field
    assignments become successive record updates. *)
Definition _enhance_with_seo (meta : Meta) (analysis : ImageAnalysis)
    (platform : string) : Meta :=
  let trending := _get_relevant_trending_keywords meta.(keywords_en) analysis in
  let meta := set_trending meta trending in
  let meta := set_seo_score meta (_calculate_seo_score meta analysis) in
  let meta := set_market_potential meta (_assess_market_potential meta analysis) in
  set_technical_tags meta (_generate_technical_tags analysis).

End Enrich.

(* ================================================================= *)
(** ** [TrendAnalyzer.analyze_batch_trends] (stockmate_pro.py) *)

Module Trends.
Import Pro.
Local Open Scope Q_scope.

(** A Python float: a finite value, or NaN. *)
Inductive pyfloat := Fin (q : Q) | NaN.

(** [np.mean(xs)]: NaN (with a RuntimeWarning, not an exception) on an
    empty list. *)
Definition np_mean (xs : list Q) : pyfloat :=
  match xs with
  | [] => NaN
  | _ => Fin (fold_left Qplus xs 0 / inject_Z (Z.of_nat (length xs)))
  end.

(** [collections.Counter(xs)]: counts in first-insertion order. *)
Fixpoint counter_add (k : string) (c : list (string * nat)) : list (string * nat) :=
  match c with
  | [] => [(k, 1%nat)]
  | (k', n) :: r => if String.eqb k k' then (k', S n) :: r else (k', n) :: counter_add k r
  end.

Definition Counter (xs : list string) : list (string * nat) :=
  fold_left (fun c k => counter_add k c) xs [].

(** [Counter.most_common(n)]: a stable sort on decreasing count, then
    the first [n] entries. *)
Fixpoint insert_desc (p : string * nat) (l : list (string * nat)) : list (string * nat) :=
  match l with
  | [] => [p]
  | q :: r => if (snd q <? snd p)%nat then p :: l else q :: insert_desc p r
  end.

Definition most_common (c : list (string * nat)) (n : nat) : list (string * nat) :=
  firstn n (fold_left (fun acc p => insert_desc p acc) c []).

Record TrendReport := {
  top_keywords : list (string * nat);
  trend_scores : list (string * Q);
  top_categories : list (string * nat);
  avg_seo_score : pyfloat;
  market_potential_distribution : list (string * nat)
}.

(** [count / len(metadata_list)]: [None] is the ZeroDivisionError. *)
Definition py_div (a b : nat) : option Q :=
  if (b =? 0)%nat then None
  else Some (inject_Z (Z.of_nat a) / inject_Z (Z.of_nat b)).

Fixpoint trend_scores_of (counts : list (string * nat)) (n : nat)
    : option (list (string * Q)) :=
  match counts with
  | [] => Some []
  | (keyword, count) :: r =>
      match py_div count n, trend_scores_of r n with
      | Some base_score, Some rest =>
          let trend_boost :=
            if PyStr.mem keyword Config.MARKET_TRENDS_high_demand then 3#2 else 1 in
          Some ((keyword, base_score * trend_boost) :: rest)
      | _, _ => None
      end
  end.

(** [analyze_batch_trends(metadata_list)]; [None] stands for a raised
    exception. *)
Definition analyze_batch_trends (metadata_list : list Meta) : option TrendReport :=
  let all_keywords :=
    fold_left (fun acc m => acc ++ m.(keywords_en) ++ m.(trending_keywords))
              metadata_list [] in
  let keyword_counts := Counter all_keywords in
  match trend_scores_of keyword_counts (length metadata_list) with
  | None => None
  | Some trend_scores =>
      let categories :=
        filter (fun c => negb (String.eqb c "")) (map category metadata_list) in
      let category_counts := Counter categories in
      Some {| top_keywords := most_common keyword_counts 20;
              trend_scores := trend_scores;
              top_categories := most_common category_counts 10;
              avg_seo_score := np_mean (map seo_score metadata_list);
              market_potential_distribution :=
                Counter (map market_potential metadata_list) |}
  end.

End Trends.

(* ================================================================= *)
(** ** [json.loads] and [_force_json] *)

Module Json.

Local Set Warnings "-register-all".

(** Decoded JSON values; a number keeps its lexeme, an object is a
    Python dict (insertion order, one entry per key). *)
Inductive json :=
| JNull
| JBool (b : bool)
| JNum (lexeme : string)
| JStr (s : string)
| JArr (items : list json)
| JObj (entries : list (string * json)).

Definition chr (n : nat) : ascii := ascii_of_nat n.

(** [json.decoder.WHITESPACE]: [[ \t\n\r]*] *)
Fixpoint skip_ws (l : list ascii) : list ascii :=
  match l with
  | c :: r =>
      let n := nat_of_ascii c in
      if ((n =? 32) || (n =? 9) || (n =? 10) || (n =? 13))%nat then skip_ws r else l
  | [] => []
  end.

Definition is_digit (c : ascii) : bool :=
  let n := nat_of_ascii c in ((48 <=? n) && (n <=? 57))%nat.

Fixpoint take_digits (l : list ascii) : list ascii * list ascii :=
  match l with
  | c :: r => if is_digit c then let '(d, rest) := take_digits r in (c :: d, rest)
              else ([], l)
  | [] => ([], [])
  end.

(** [NUMBER_RE] of json.scanner: an optional minus sign, then [0] or a
    nonzero digit followed by digits, then an optional [.] with digits,
    then an optional exponent [e]/[E], sign, digits. *)
Definition lex_number (l : list ascii) : option (list ascii * list ascii) :=
  let '(sign, l1) := match l with
                     | c :: r => if Ascii.eqb c "-"%char then ([c], r) else ([], l)
                     | [] => ([], []) end in
  let int_part :=
    match l1 with
    | c :: r =>
        if Ascii.eqb c "0"%char then Some ([c], r)
        else if is_digit c then let '(d, rest) := take_digits r in Some (c :: d, rest)
        else None
    | [] => None
    end in
  match int_part with
  | None => None
  | Some (ip, l2) =>
      let '(frac, l3) :=
        match l2 with
        | c :: r =>
            if Ascii.eqb c "."%char then
              match take_digits r with
              | ([], _) => ([], l2)
              | (d, rest) => (c :: d, rest)
              end
            else ([], l2)
        | [] => ([], [])
        end in
      let '(exp, l4) :=
        match l3 with
        | e :: r =>
            if Ascii.eqb e "e"%char || Ascii.eqb e "E"%char then
              let '(sg, r') := match r with
                               | c :: r'' =>
                                   if Ascii.eqb c "-"%char || Ascii.eqb c "+"%char
                                   then ([c], r'') else ([], r)
                               | [] => ([], []) end in
              match take_digits r' with
              | ([], _) => ([], l3)
              | (d, rest) => (e :: sg ++ d, rest)
              end
            else ([], l3)
        | [] => ([], [])
        end in
      Some (sign ++ ip ++ frac ++ exp, l4)
  end.

Definition hex_val (c : ascii) : option nat :=
  let n := nat_of_ascii c in
  if ((48 <=? n) && (n <=? 57))%nat then Some (n - 48)%nat
  else if ((97 <=? n) && (n <=? 102))%nat then Some (n - 87)%nat
  else if ((65 <=? n) && (n <=? 70))%nat then Some (n - 55)%nat
  else None.

(** UTF-8 bytes of a code point below 0x10000 (a surrogate of a
    [\uXXXX\uXXXX] pair is encoded on its own). *)
Definition utf8 (cp : nat) : list ascii :=
  if (cp <? 128)%nat then [chr cp]
  else if (cp <? 2048)%nat then [chr (192 + cp / 64); chr (128 + cp mod 64)]
  else [chr (224 + cp / 4096); chr (128 + (cp / 64) mod 64); chr (128 + cp mod 64)].

(** [py_scanstring] in strict mode, after the opening quote. *)
Fixpoint scan_string (l : list ascii) (acc : list ascii) : option (string * list ascii) :=
  match l with
  | [] => None
  | c :: r =>
      let n := nat_of_ascii c in
      if (n =? 34)%nat then Some (string_of_list_ascii (rev acc), r)
      else if (n <? 32)%nat then None
      else if (n =? 92)%nat then
        match r with
        | e :: r' =>
            let m := nat_of_ascii e in
            if (m =? 34)%nat then scan_string r' (chr 34 :: acc)
            else if (m =? 92)%nat then scan_string r' (chr 92 :: acc)
            else if (m =? 47)%nat then scan_string r' (chr 47 :: acc)
            else if (m =? 98)%nat then scan_string r' (chr 8 :: acc)
            else if (m =? 102)%nat then scan_string r' (chr 12 :: acc)
            else if (m =? 110)%nat then scan_string r' (chr 10 :: acc)
            else if (m =? 114)%nat then scan_string r' (chr 13 :: acc)
            else if (m =? 116)%nat then scan_string r' (chr 9 :: acc)
            else if (m =? 117)%nat then
              match r' with
              | h1 :: h2 :: h3 :: h4 :: r'' =>
                  match hex_val h1, hex_val h2, hex_val h3, hex_val h4 with
                  | Some a, Some b, Some c', Some d =>
                      scan_string r'' (rev (utf8 (((a * 16 + b) * 16 + c') * 16 + d)) ++ acc)
                  | _, _, _, _ => None
                  end
              | _ => None
              end
            else None
        | [] => None
        end
      else scan_string r (c :: acc)
  end.

(** [dict(pairs)]: a repeated key keeps its first position and takes
    the last value. *)
Fixpoint dict_set (k : string) (v : json) (d : list (string * json)) : list (string * json) :=
  match d with
  | [] => [(k, v)]
  | (k', v') :: r => if String.eqb k k' then (k', v) :: r else (k', v') :: dict_set k v r
  end.

Fixpoint prefix_l (p l : list ascii) : option (list ascii) :=
  match p, l with
  | [], _ => Some l
  | c :: p', d :: l' => if Ascii.eqb c d then prefix_l p' l' else None
  | _, [] => None
  end.

(** [scan_once] / [JSONObject] / [JSONArray]; [fuel] bounds the
    nesting depth and is never exhausted with [S (length input)]. *)
Fixpoint parse_value (fuel : nat) (l : list ascii) : option (json * list ascii) :=
  match fuel with
  | O => None
  | S f =>
      match l with
      | [] => None
      | c :: r =>
          let n := nat_of_ascii c in
          if (n =? 34)%nat then
            match scan_string r [] with
            | Some (s, rest) => Some (JStr s, rest)
            | None => None
            end
          else if (n =? 123)%nat then
            match skip_ws r with
            | d :: r' => if (nat_of_ascii d =? 125)%nat then Some (JObj [], r')
                         else parse_members f (d :: r') []
            | [] => None
            end
          else if (n =? 91)%nat then
            match skip_ws r with
            | d :: r' => if (nat_of_ascii d =? 93)%nat then Some (JArr [], r')
                         else parse_elems f (d :: r') []
            | [] => None
            end
          else match prefix_l (list_ascii_of_string "null") l with
          | Some rest => Some (JNull, rest)
          | None =>
          match prefix_l (list_ascii_of_string "true") l with
          | Some rest => Some (JBool true, rest)
          | None =>
          match prefix_l (list_ascii_of_string "false") l with
          | Some rest => Some (JBool false, rest)
          | None =>
          match lex_number l with
          | Some (lexeme, rest) => Some (JNum (string_of_list_ascii lexeme), rest)
          | None =>
          match prefix_l (list_ascii_of_string "NaN") l with
          | Some rest => Some (JNum "NaN", rest)
          | None =>
          match prefix_l (list_ascii_of_string "Infinity") l with
          | Some rest => Some (JNum "Infinity", rest)
          | None =>
          match prefix_l (list_ascii_of_string "-Infinity") l with
          | Some rest => Some (JNum "-Infinity", rest)
          | None => None
          end end end end end end end
      end
  end
with parse_members (fuel : nat) (l : list ascii) (acc : list (string * json))
    : option (json * list ascii) :=
  match fuel with
  | O => None
  | S f =>
      match l with
      | c :: r =>
          if (nat_of_ascii c =? 34)%nat then
            match scan_string r [] with
            | None => None
            | Some (key, r1) =>
                match skip_ws r1 with
                | d :: r2 =>
                    if (nat_of_ascii d =? 58)%nat then
                      match parse_value f (skip_ws r2) with
                      | None => None
                      | Some (v, r3) =>
                          let acc' := dict_set key v acc in
                          match skip_ws r3 with
                          | e :: r4 =>
                              if (nat_of_ascii e =? 125)%nat then Some (JObj acc', r4)
                              else if (nat_of_ascii e =? 44)%nat then
                                parse_members f (skip_ws r4) acc'
                              else None
                          | [] => None
                          end
                      end
                    else None
                | [] => None
                end
            end
          else None
      | [] => None
      end
  end
with parse_elems (fuel : nat) (l : list ascii) (acc : list json)
    : option (json * list ascii) :=
  match fuel with
  | O => None
  | S f =>
      match parse_value f l with
      | None => None
      | Some (v, r) =>
          match skip_ws r with
          | e :: r' =>
              if (nat_of_ascii e =? 93)%nat then Some (JArr (acc ++ [v]), r')
              else if (nat_of_ascii e =? 44)%nat then
                parse_elems f (skip_ws r') (acc ++ [v])
              else None
          | [] => None
          end
      end
  end.

(** [json.loads(s)]; [None] is the raised [JSONDecodeError]. *)
Definition loads (s : string) : option json :=
  let l := skip_ws (list_ascii_of_string s) in
  match parse_value (S (length l)) l with
  | Some (v, rest) => match skip_ws rest with [] => Some v | _ => None end
  | None => None
  end.

Definition is_alpha (c : ascii) : bool :=
  let n := nat_of_ascii c in
  ((65 <=? n) && (n <=? 90))%nat || ((97 <=? n) && (n <=? 122))%nat.

Fixpoint drop_alpha (l : list ascii) : list ascii :=
  match l with
  | c :: r => if is_alpha c then drop_alpha r else l
  | [] => []
  end.

Definition fence : string := "```".

(** The preprocessing shared by both [_force_json]s:
    [s = (s or "").strip()], then the code-fence removal. *)
Definition unfence (s : string) : string :=
  let s := PyStr.strip s in
  if String.prefix fence s then
    (* drop the leading fence and the letters of its language tag, strip *)
    let s := PyStr.strip (string_of_list_ascii
               (drop_alpha (skipn 3 (list_ascii_of_string s)))) in
    (* drop a trailing fence *)
    let l := list_ascii_of_string s in
    if String.prefix (string_of_list_ascii (rev (list_ascii_of_string fence)))
                     (string_of_list_ascii (rev l))
    then string_of_list_ascii (firstn (length l - 3) l)
    else s
  else s.

Fixpoint index_of (c : ascii) (l : list ascii) (i : nat) : option nat :=
  match l with
  | [] => None
  | d :: r => if Ascii.eqb c d then Some i else index_of c r (S i)
  end.

(** [re.search(r"\{.*\}", s, flags=re.S)]: from the first [{] to the
    last [}] after it (greedy [.*], [.] matching newlines too). *)
Definition brace_match (s : string) : option string :=
  let l := list_ascii_of_string s in
  match index_of "{"%char l 0 with
  | None => None
  | Some i =>
      let after := skipn (S i) l in
      match index_of "}"%char (rev after) 0 with
      | None => None
      | Some k =>
          (* the last [}] sits at index [length after - S k] of [after] *)
          Some (string_of_list_ascii (firstn (S (S (length after - S k))) (skipn i l)))
      end
  end.

Definition fallback_pro : json :=
  JObj [("title", JStr "Untitled"); ("description", JStr "Stock photo");
        ("keywords_en", JArr []); ("keywords_zh", JArr [])].

(** [_force_json] of stockmate_pro.py: falls back instead of raising
    (the warning it prints is not modelled). *)
Definition force_json_pro (s0 : string) : json :=
  let s := unfence s0 in
  match loads s with
  | Some v => v
  | None =>
      match brace_match s with
      | Some m => match loads m with Some v => v | None => fallback_pro end
      | None => fallback_pro
      end
  end.

(** [_force_json] of stockmate.py: [inr msg] is the raised [ValueError]. *)
Definition force_json_basic (s0 : string) : json + string :=
  let s := unfence s0 in
  match loads s with
  | Some v => inl v
  | None =>
      match brace_match s with
      | Some m => match loads m with
                  | Some v => inl v
                  | None => inr ("Model did not return valid JSON; raw="
                                 ++ string_of_list_ascii (firstn 800 (list_ascii_of_string s)))%string
                  end
      | None => inr ("Model did not return valid JSON; raw="
                     ++ string_of_list_ascii (firstn 800 (list_ascii_of_string s)))%string
      end
  end.

End Json.

(* ================================================================= *)
(** ** The [Meta] dataclass of stockmate.py *)

Module Basic.

Record Meta := {
  title : string;
  description : string;
  keywords_en : list string;
  keywords_zh : list string
}.

Fixpoint _dedupe_from (items : list string) (seen : list string) : list string :=
  match items with
  | [] => []
  | k0 :: rest =>
      let k := PyStr.strip k0 in
      if (String.length k =? 0)%nat then _dedupe_from rest seen
      else
        let low := PyStr.lower k in
        if PyStr.mem low seen then _dedupe_from rest seen
        else k :: _dedupe_from rest (low :: seen)
  end.

(** [Meta._dedupe(items)] *)
Definition _dedupe (items : list string) : list string := _dedupe_from items [].

(** [Meta.merged_keywords(self, lang_pref)] *)
Definition merged_keywords (self : Meta) (lang_pref : string) : list string :=
  if String.eqb lang_pref "en" then _dedupe self.(keywords_en)
  else if String.eqb lang_pref "zh" then _dedupe self.(keywords_zh)
  else _dedupe (self.(keywords_en) ++ self.(keywords_zh)).

End Basic.

(* ================================================================= *)
(** ** [re.sub], [re.split], [str.title], slicing and [pathlib] names *)

Module PyRe.

(** [re.sub(r"[...]+", " ", s)]: every maximal run of characters
    satisfying [p] becomes one space. *)
Fixpoint sub_runs (p : ascii -> bool) (l : list ascii) (in_run : bool) : list ascii :=
  match l with
  | [] => []
  | c :: r =>
      if p c then (if in_run then sub_runs p r true else " "%char :: sub_runs p r true)
      else c :: sub_runs p r false
  end.

(** [re.split(r"[...]+", s)] for the separator class [p]: the pieces
    between maximal separator runs, keeping the empty pieces Python
    returns when [s] starts or ends with a separator. *)
Fixpoint split_runs (p : ascii -> bool) (l : list ascii) (cur : list ascii) (in_sep : bool)
    : list string :=
  match l with
  | [] => [string_of_list_ascii (rev cur)]
  | c :: r =>
      if p c then
        (if in_sep then split_runs p r cur true
         else string_of_list_ascii (rev cur) :: split_runs p r [] true)
      else split_runs p r (c :: cur) false
  end.

(** The class [[_\-]]. *)
Definition is_us_dash (c : ascii) : bool :=
  Ascii.eqb c "_"%char || Ascii.eqb c "-"%char.

(** The class [[^a-zA-Z]]. *)
Definition non_letter (c : ascii) : bool := negb (Json.is_alpha c).

Definition upper_char (c : ascii) : ascii :=
  let n := nat_of_ascii c in
  if ((97 <=? n) && (n <=? 122))%nat then ascii_of_nat (n - 32) else c.

(** [str.title()]: a letter is upper-cased when the character before it
    is not a letter, lower-cased otherwise; other characters are kept. *)
Fixpoint title_l (l : list ascii) (prev_cased : bool) : list ascii :=
  match l with
  | [] => []
  | c :: r =>
      if Json.is_alpha c then
        (if prev_cased then PyStr.lower_char c else upper_char c) :: title_l r true
      else c :: title_l r false
  end.

Definition py_title (s : string) : string :=
  string_of_list_ascii (title_l (list_ascii_of_string s) false).

(** [xs[:n]]; a negative [n] counts from the end. *)
Definition slice_to {A} (xs : list A) (n : Z) : list A :=
  if (0 <=? n)%Z then firstn (Z.to_nat n) xs
  else firstn (length xs - Z.to_nat (- n)) xs.

(** [s[:n]] *)
Definition str_slice_to (s : string) (n : Z) : string :=
  string_of_list_ascii (slice_to (list_ascii_of_string s) n).

(** [sep.join(xs)] *)
Fixpoint join (sep : string) (xs : list string) : string :=
  match xs with
  | [] => ""
  | [x] => x
  | x :: r => (x ++ sep ++ join sep r)%string
  end.

End PyRe.

Module PyPath.

(** A path of [rglob]: its parent components and its final component. *)
Record Path := { dir_parts : list string; name : string }.

(** [str(p)] *)
Definition path_str (p : Path) : string := PyRe.join "/" (p.(dir_parts) ++ [p.(name)]).

(** Index of the last [c] in [l] (start the scan with [i = 0], [found = None]). *)
Fixpoint rindex_of (c : ascii) (l : list ascii) (i : nat) (found : option nat) : option nat :=
  match l with
  | [] => found
  | d :: r => rindex_of c r (S i) (if Ascii.eqb c d then Some i else found)
  end.

(** pathlib: [i = name.rfind('.')], a suffix exactly when
    [0 < i < len(name) - 1]. *)
Definition suffix_index (nm : string) : option nat :=
  let l := list_ascii_of_string nm in
  match rindex_of "."%char l 0 None with
  | Some i => if ((0 <? i) && (i <? length l - 1))%nat then Some i else None
  | None => None
  end.

(** [p.suffix] *)
Definition suffix (p : Path) : string :=
  match suffix_index p.(name) with
  | Some i => string_of_list_ascii (skipn i (list_ascii_of_string p.(name)))
  | None => ""
  end.

(** [p.stem] *)
Definition stem (p : Path) : string :=
  match suffix_index p.(name) with
  | Some i => string_of_list_ascii (firstn i (list_ascii_of_string p.(name)))
  | None => p.(name)
  end.

End PyPath.

(* ================================================================= *)
(** ** [ImageAnalyzer] (stockmate_pro.py) *)

Module Analyzer.
Import Enrich.
Local Open Scope Q_scope.

(** Float comparisons [a > b], [a < b], [a >= b]. *)
Definition gt (a b : Q) : bool := if Qlt_le_dec b a then true else false.
Definition lt (a b : Q) : bool := gt b a.
Definition ge (a b : Q) : bool := Qle_bool b a.

(** [_analyze_colors(img)] on [r, g, b = ImageStat.Stat(img_small).mean]. *)
Definition _analyze_colors (r g b : Q) : list string :=
  if gt r 200 && gt g 200 && gt b 200 then ["white"]
  else if lt r 50 && lt g 50 && lt b 50 then ["black"]
  else if gt r g && gt r b then
    (if gt (r - g) 50 then ["red"] else [if gt g b then "orange" else "purple"])
  else if gt g r && gt g b then ["green"]
  else if gt b r && gt b g then ["blue"]
  else ["gray"].

(** [_determine_style(brightness, contrast)] *)
Definition _determine_style (brightness contrast : Q) : string :=
  if gt brightness (4#5) then (if lt contrast (3#10) then "high-key" else "bright")
  else if lt brightness (3#10) then (if gt contrast (1#2) then "low-key" else "dark")
  else if gt contrast (7#10) then "dramatic"
  else "natural".

Definition warm_colors : list string := ["red"; "orange"; "yellow"; "pink"].
Definition cool_colors : list string := ["blue"; "green"; "purple"].

(** [_determine_mood(colors, brightness)] *)
Definition _determine_mood (colors : list string) (brightness : Q) : string :=
  if existsb (fun c => PyStr.mem c warm_colors) colors then
    (if gt brightness (1#2) then "warm" else "cozy")
  else if existsb (fun c => PyStr.mem c cool_colors) colors then
    (if gt brightness (1#2) then "cool" else "mysterious")
  else "neutral".

Definition scene_mapping : list (string * string) :=
  [("landscape", "outdoor"); ("portrait", "people"); ("square", "product");
   ("standard", "general")].

(** [_determine_scene_type(composition)] *)
Definition _determine_scene_type (composition : string) : string :=
  match Config.dict_get composition scene_mapping with
  | Some v => v
  | None => "general"
  end.

(** [_analyze_composition(img)] on [width, height = img.size]; [None]
    is the ZeroDivisionError of [width / height].  The ratio is an
    exact rational: at a ratio of exactly 9/10 Python's float test
    [abs(0.9 - 1.0) < 0.1] holds ("square") where the exact one fails
    ("standard"). *)
Definition _analyze_composition (width height : Z) : option string :=
  if (height =? 0)%Z then None
  else
    let aspect_ratio := inject_Z width / inject_Z height in
    Some (if lt (Qabs (aspect_ratio - 1)) (1#10) then "square"
          else if gt aspect_ratio (3#2) then "landscape"
          else if lt aspect_ratio (7#10) then "portrait"
          else "standard").

(** [_assess_quality(img)] on [width, height = img.size]. *)
Definition _assess_quality (width height : Z) : Q :=
  let megapixels := inject_Z (width * height) / inject_Z 1000000 in
  if ge megapixels 12 then 1
  else if ge megapixels 6 then 4#5
  else if ge megapixels 3 then 3#5
  else 2#5.

(** What [analyze_image] reads off an opened image through PIL: its size,
    the channel means of the 100x100 thumbnail, and the mean and
    standard deviation of its grayscale version. *)
Record ImageStats := {
  width : Z;
  height : Z;
  rgb_mean : Q * Q * Q;
  gray_mean : Q;
  gray_stddev : Q
}.

(** The [ImageAnalysis] of the [except] branch. *)
Definition fallback_analysis : ImageAnalysis := {|
  dominant_colors := ["unknown"]; brightness := 1#2; contrast := 1#2;
  composition := "unknown"; style := "unknown"; mood := "neutral";
  objects := []; scene_type := "unknown"; technical_quality := 1#2 |}.

(** [analyze_image(image_path)].  [None] is an image PIL fails to open,
    convert or resize; an exception later in the [try] block (the
    division by a zero height) also ends in the fallback. *)
Definition analyze_image (img : option ImageStats) : ImageAnalysis :=
  match img with
  | None => fallback_analysis
  | Some st =>
      let '(r, g, b) := st.(rgb_mean) in
      let dominant_colors := _analyze_colors r g b in
      let brightness := st.(gray_mean) / 255 in
      let contrast := st.(gray_stddev) / 128 in
      match _analyze_composition st.(width) st.(height) with
      | None => fallback_analysis
      | Some composition =>
          let quality := _assess_quality st.(width) st.(height) in
          {| dominant_colors := dominant_colors; brightness := brightness;
             contrast := contrast; composition := composition;
             style := _determine_style brightness contrast;
             mood := _determine_mood dominant_colors brightness;
             objects := []; scene_type := _determine_scene_type composition;
             technical_quality := quality |}
      end
  end.

End Analyzer.

(* ================================================================= *)
(** ** [_fallback_metadata], [write_iptc] and the CSV keyword column
       (stockmate_pro.py) *)

Module ProIO.
Import Pro Enrich.

(** [_fallback_metadata(img_path, analysis, max_kw)] *)
Definition _fallback_metadata (img_path : PyPath.Path) (analysis : ImageAnalysis)
    (max_kw : Z) : Meta :=
  let stem := PyPath.stem img_path in
  let title := PyRe.py_title (PyStr.strip (string_of_list_ascii
                 (PyRe.sub_runs PyRe.is_us_dash (list_ascii_of_string stem) false))) in
  {| title := if String.eqb title "" then "Stock Photo" else PyRe.str_slice_to title 60;
     description := ("High quality stock photo featuring "
                     ++ PyRe.join ", " analysis.(dominant_colors) ++ " tones.")%string;
     keywords_en := PyRe.slice_to
       (filter (fun word => (2 <? String.length word)%nat)
          (PyRe.split_runs PyRe.non_letter (list_ascii_of_string (PyStr.lower stem)) [] false))
       (max_kw / 2)%Z;
     keywords_zh := [];
     category := ""; subcategory := "";
     mood_tags := if String.eqb analysis.(mood) "unknown" then [] else [analysis.(mood)];
     style_tags := if String.eqb analysis.(style) "unknown" then [] else [analysis.(style)];
     color_tags := analysis.(dominant_colors);
     technical_tags := []; trending_keywords := [];
     seo_score := 0; market_potential := "Medium" |}.

Definition IPTC_EXTS : list string := [".jpg"; ".jpeg"; ".tif"; ".tiff"].

(** The argument list [write_iptc] hands to [subprocess.run]. *)
Definition iptc_cmd (img : PyPath.Path) (meta : Meta)
    (platform_config : Config.PlatformConfig) : list string :=
  let keywords := merged_keywords meta "en,zh" platform_config.(Config.max_keywords) in
  ["exiftool"; "-overwrite_original";
   "-IPTC:ObjectName=" ++ meta.(title);
   "-IPTC:Caption-Abstract=" ++ meta.(description);
   "-IPTC:Category=" ++ meta.(category)]%string
  ++ map (fun kw => "-IPTC:Keywords=" ++ kw)%string
         (filter (fun kw => negb (String.eqb kw "")) keywords)
  ++ [PyPath.path_str img].

(** What [subprocess.run] does: completes with a return code and the
    captured streams, or raises. *)
Inductive run_result :=
| Completed (returncode : Z) (stdout stderr : string)
| Raised (msg : string).

(** [write_iptc(img, meta, platform_config)], with the answer of
    [has_exiftool()] and the behaviour of [subprocess.run] as arguments. *)
Definition write_iptc (has_exiftool : bool) (run : list string -> run_result)
    (img : PyPath.Path) (meta : Meta) (platform_config : Config.PlatformConfig)
    : bool * string :=
  if negb (PyStr.mem (PyStr.lower (PyPath.suffix img)) IPTC_EXTS) then
    (false, "IPTC embedding is supported for JPEG/TIFF only")
  else if negb has_exiftool then (false, "ExifTool not found")
  else
    match run (iptc_cmd img meta platform_config) with
    | Completed rc out err =>
        if negb (rc =? 0)%Z then
          (false, "ExifTool error: "
                  ++ (let e := PyStr.strip err in
                      if String.eqb e "" then PyStr.strip out else e))%string
        else (true, "IPTC written successfully")
    | Raised e => (false, "ExifTool failed: " ++ e)%string
    end.

(** The [keywords] column of a row of [process_folder_enhanced]. *)
Definition csv_keywords (meta : Meta) (platform_config : Config.PlatformConfig) : string :=
  PyRe.join "; " (merged_keywords meta "en,zh" platform_config.(Config.max_keywords)).

End ProIO.

(* ================================================================= *)
(** ** [MockAIGenerator] (stockmate.py) *)

Module Mock.

(** The [mapping] of [_to_chinese]; its values are UTF-8 strings. *)
Definition mapping : list (string * string) :=
  [("sunset", "日落"); ("sunrise", "日出"); ("mountain", "山");
   ("mountains", "群山"); ("forest", "森林"); ("tree", "树");
   ("trees", "树木"); ("city", "城市"); ("night", "夜晚");
   ("street", "街道"); ("sky", "天空"); ("road", "道路");
   ("river", "河流"); ("sea", "大海"); ("ocean", "海洋");
   ("beach", "海滩"); ("flower", "花"); ("cat", "猫"); ("dog", "狗");
   ("landscape", "风景"); ("travel", "旅行"); ("nature", "自然");
   ("red", "红色"); ("blue", "蓝色"); ("green", "绿色");
   ("yellow", "黄色"); ("orange", "橙色"); ("pink", "粉色");
   ("purple", "紫色"); ("white", "白色"); ("black", "黑色");
   ("brown", "棕色"); ("gray", "灰色")].

(** [_slug_to_title(stem)] *)
Definition _slug_to_title (stem : string) : string :=
  let cleaned := PyStr.strip (string_of_list_ascii
                   (PyRe.sub_runs PyRe.is_us_dash (list_ascii_of_string stem) false)) in
  let cleaned := string_of_list_ascii
                   (PyRe.sub_runs PyStr.is_space (list_ascii_of_string cleaned) false) in
  let title := PyRe.str_slice_to (PyRe.py_title cleaned) 60 in
  if String.eqb title "" then "Untitled" else title.

(** The [seen]-set loop of [_english_keywords]. *)
Fixpoint dedupe_exact (tokens seen : list string) : list string :=
  match tokens with
  | [] => []
  | t :: r => if PyStr.mem t seen then dedupe_exact r seen else t :: dedupe_exact r (t :: seen)
  end.

(** [_english_keywords(stem, max_kw)] *)
Definition _english_keywords (stem : string) (max_kw : Z) : list string :=
  let raw := PyRe.split_runs PyRe.non_letter (list_ascii_of_string (PyStr.lower stem)) [] false in
  let tokens := filter (fun t => (1 <? String.length t)%nat) raw in
  PyRe.slice_to (dedupe_exact tokens []) max_kw.

(** The loop of [_to_chinese]. *)
Fixpoint to_chinese_from (kws_en seen : list string) : list string :=
  match kws_en with
  | [] => []
  | w :: r =>
      let zh := match Config.dict_get (PyStr.lower w) mapping with Some v => v | None => w end in
      if PyStr.mem zh seen then to_chinese_from r seen else zh :: to_chinese_from r (zh :: seen)
  end.

(** [_to_chinese(kws_en)] *)
Definition _to_chinese (kws_en : list string) : list string := to_chinese_from kws_en [].

(** [MockAIGenerator.for_image(img_path, max_kw)] *)
Definition for_image (img_path : PyPath.Path) (max_kw : Z) : Basic.Meta :=
  let stem := PyPath.stem img_path in
  let title := _slug_to_title stem in
  let description := ("Stock photo of " ++ PyStr.lower title ++ ".")%string in
  let k_en := _english_keywords stem max_kw in
  let k_zh := _to_chinese k_en in
  {| Basic.title := title; Basic.description := description;
     Basic.keywords_en := k_en; Basic.keywords_zh := k_zh |}.

End Mock.

(* ================================================================= *)
(** ** [EnhancedAIGenerator.for_image] (stockmate_pro.py) *)

Module Pipeline.
Import Pro Enrich.

(** The fields [_generate_base_metadata] reads from the model's JSON
    answer with [data.get]. *)
Record AiFields := {
  ai_title : string;
  ai_description : string;
  ai_keywords_en : list string;
  ai_keywords_zh : list string;
  ai_category : string
}.

(** [[s.strip() for s in xs if s and str(s).strip()]] *)
Definition clean_list (xs : list string) : list string :=
  map PyStr.strip
    (filter (fun s => negb (String.eqb s "") && negb (String.eqb (PyStr.strip s) "")) xs).

(** [x.split() if x else []] *)
Definition split_or_empty (x : string) : list string :=
  if String.eqb x "" then [] else split_ws x.

(** The [return Meta(...)] of the [try] block of [_generate_base_metadata]. *)
Definition base_from_fields (d : AiFields) (analysis : ImageAnalysis)
    (platform_config : Config.PlatformConfig) : Meta := {|
  title := PyRe.str_slice_to (PyStr.strip d.(ai_title))
             platform_config.(Config.max_title_length);
  description := PyRe.str_slice_to (PyStr.strip d.(ai_description))
                   platform_config.(Config.max_description_length);
  keywords_en := clean_list d.(ai_keywords_en);
  keywords_zh := clean_list d.(ai_keywords_zh);
  category := d.(ai_category); subcategory := "";
  mood_tags := split_or_empty analysis.(mood);
  style_tags := split_or_empty analysis.(style);
  color_tags := analysis.(dominant_colors);
  technical_tags := []; trending_keywords := [];
  seo_score := 0; market_potential := "Medium" |}.

(** [_generate_base_metadata(img_path, analysis, platform_config, max_kw)]:
    [None] is an exception in the [try] block (the API call or reading
    the answer), which ends in [_fallback_metadata]. *)
Definition _generate_base_metadata (answer : option AiFields) (img_path : PyPath.Path)
    (analysis : ImageAnalysis) (platform_config : Config.PlatformConfig) (max_kw : Z) : Meta :=
  match answer with
  | Some d => base_from_fields d analysis platform_config
  | None => ProIO._fallback_metadata img_path analysis max_kw
  end.

(** [EnhancedAIGenerator.for_image(img_path, platform, optimize_seo, max_kw)];
    [img] is what PIL reads from [img_path]. *)
Definition for_image (answer : option AiFields) (img_path : PyPath.Path)
    (img : option Analyzer.ImageStats) (platform : string) (optimize_seo : bool)
    (max_kw : Z) : Meta :=
  let platform_config := Config.get_platform_config platform in
  let image_analysis := Analyzer.analyze_image img in
  let base_meta := _generate_base_metadata answer img_path image_analysis
                     platform_config max_kw in
  if optimize_seo then _enhance_with_seo base_meta image_analysis platform
  else base_meta.

End Pipeline.

(* ================================================================= *)
(** ** Concrete inputs *)

Module Inputs.

Definition dq : string := String (Json.chr 34) EmptyString.
Definition nl : string := String (Json.chr 10) EmptyString.

(** A [Meta] with every field given. *)
Definition meta (t d : string) (en zh trending mood style color tech : list string)
    (score : Q) (mp : string) : Pro.Meta :=
  {| Pro.title := t; Pro.description := d; Pro.keywords_en := en;
     Pro.keywords_zh := zh; Pro.category := ""; Pro.subcategory := "";
     Pro.mood_tags := mood; Pro.style_tags := style; Pro.color_tags := color;
     Pro.technical_tags := tech; Pro.trending_keywords := trending;
     Pro.seo_score := score; Pro.market_potential := mp |}.

Definition analysis_q (tq : Q) : Enrich.ImageAnalysis :=
  {| Enrich.dominant_colors := ["orange"; "purple"]; Enrich.brightness := 1#2;
     Enrich.contrast := 1#2; Enrich.composition := "landscape";
     Enrich.style := "natural"; Enrich.mood := "warm"; Enrich.objects := [];
     Enrich.scene_type := "outdoor"; Enrich.technical_quality := tq |}.

(** The spec's priority-order example: trending [a], primary [b, a, c, ...]. *)
Definition abc_meta : Pro.Meta :=
  meta "" "" ["b"; "a"; "c"; "d"; "e"; "f"; "g"; "h"; "i"; "j"] []
       ["a"] [] [] [] [] 0 "Medium".

Definition tree_meta : Pro.Meta :=
  meta "" "" ["tree"] ["senlin"] [] [] [] [] [] 0 "Medium".

Definition tree_trending_meta : Pro.Meta :=
  meta "" "" [] [] ["tree"] [] [] [] [] 0 "Medium".

Definition tree_basic_meta : Basic.Meta :=
  {| Basic.title := ""; Basic.description := "";
     Basic.keywords_en := ["tree"]; Basic.keywords_zh := ["senlin"] |}.

End Inputs.

(* ================================================================= *)
(** ** Boolean checks used to settle statements on concrete lists *)

Module Checks.

Fixpoint nodupb (l : list string) : bool :=
  match l with
  | [] => true
  | x :: r => negb (PyStr.mem x r) && nodupb r
  end.

Definition is_lower_letter (c : ascii) : bool :=
  let n := nat_of_ascii c in ((97 <=? n) && (n <=? 122))%nat.

(** A keyword [Meta._dedupe] keeps unchanged: stripped, non-empty,
    already lower-case. *)
Definition clean_kw (x : string) : bool :=
  String.eqb (PyStr.strip x) x && negb (String.eqb x "") && String.eqb (PyStr.lower x) x.

(** The first three words of every [TRENDING_KEYWORDS] category. *)
Definition top3_blocks : list (list string) :=
  map (fun '(_, ws) => firstn 3 ws) Config.TRENDING_KEYWORDS.

(** The total of the counts of a [Counter]. *)
Fixpoint sum_counts (c : list (string * nat)) : nat :=
  match c with [] => 0%nat | (_, n) :: r => (n + sum_counts r)%nat end.

(** Sorted by decreasing count. *)
Definition desc (l : list (string * nat)) : Prop :=
  Sorted (fun p q => (snd q <= snd p)%nat) l.

(** The list that stockmate.py's [merged_keywords] hands to [_dedupe]
    for a language preference. *)
Definition basic_candidates (self : Basic.Meta) (lang_pref : string) : list string :=
  if String.eqb lang_pref "en" then self.(Basic.keywords_en)
  else if String.eqb lang_pref "zh" then self.(Basic.keywords_zh)
  else self.(Basic.keywords_en) ++ self.(Basic.keywords_zh).

End Checks.

(* ================================================================= *)
(** * Proofs *)

Module Facts.
Import Pro.

Lemma mem_false_iff (x : string) (l : list string) :
  PyStr.mem x l = false <-> ~ In x l.
Proof.
  unfold PyStr.mem. split.
  - intros H Hin. assert (existsb (String.eqb x) l = true) as E.
    { apply existsb_exists. exists x. split; [exact Hin | apply String.eqb_refl]. }
    congruence.
  - intros Hn. destruct (existsb (String.eqb x) l) eqn:E; [|reflexivity].
    apply existsb_exists in E. destruct E as [y [Hy Heq]].
    apply String.eqb_eq in Heq. subst. contradiction.
Qed.

Lemma mem_true_iff (x : string) (l : list string) :
  PyStr.mem x l = true <-> In x l.
Proof.
  unfold PyStr.mem. rewrite existsb_exists. split.
  - intros [y [Hy Heq]]. apply String.eqb_eq in Heq. subst. exact Hy.
  - intros Hin. exists x. split; [exact Hin | apply String.eqb_refl].
Qed.

(** The loop invariant of [_dedupe_and_optimize] after the candidates
    [processed] have been scanned. *)
Record Inv (processed seen out : list string) : Prop := {
  inv_seen : forall z, In z seen <-> In z (map PyStr.lower out);
  inv_nodup : NoDup (map PyStr.lower out);
  inv_first : forall x, In x out -> exists pre raw post,
      processed = pre ++ raw :: post /\ PyStr.strip raw = x /\ rejected x = false /\
      forall y, In y pre -> rejected (PyStr.strip y) = false ->
                PyStr.lower (PyStr.strip y) <> PyStr.lower x;
  inv_covered : forall y, In y processed -> rejected (PyStr.strip y) = false ->
      In (PyStr.lower (PyStr.strip y)) seen
}.

Lemma Inv_nil : Inv [] [] [].
Proof.
  constructor; simpl; try tauto.
  - constructor.
Qed.

Lemma Inv_skip p seen out y :
  Inv p seen out ->
  (rejected (PyStr.strip y) = false -> In (PyStr.lower (PyStr.strip y)) seen) ->
  Inv (p ++ [y]) seen out.
Proof.
  intros [Hs Hn Hf Hc] Hy. constructor; auto.
  - intros x Hx. destruct (Hf x Hx) as [pre [raw [post [Hp Hrest]]]].
    exists pre, raw, (post ++ [y]). split; [|exact Hrest].
    rewrite Hp, <- app_assoc. reflexivity.
  - intros z Hz Hr. apply in_app_or in Hz. destruct Hz as [Hz|[Hz|[]]].
    + apply Hc; assumption.
    + subst. apply Hy. exact Hr.
Qed.

Lemma Inv_add p seen out y :
  Inv p seen out ->
  rejected (PyStr.strip y) = false ->
  PyStr.mem (PyStr.lower (PyStr.strip y)) seen = false ->
  Inv (p ++ [y]) (PyStr.lower (PyStr.strip y) :: seen) (out ++ [PyStr.strip y]).
Proof.
  intros [Hs Hn Hf Hc] Hr Hm. apply mem_false_iff in Hm.
  constructor.
  - intros z. rewrite map_app, in_app_iff. simpl.
    rewrite Hs. tauto.
  - rewrite map_app. apply NoDup_app; [exact Hn | repeat constructor; simpl; tauto |].
    intros z Hz1 Hz2. simpl in Hz2. destruct Hz2 as [Hz2|[]]. subst.
    apply Hm. apply Hs. exact Hz1.
  - intros x Hx. apply in_app_or in Hx. destruct Hx as [Hx|[Hx|[]]].
    + destruct (Hf x Hx) as [pre [raw [post [Hp Hrest]]]].
      exists pre, raw, (post ++ [y]). split; [|exact Hrest].
      rewrite Hp, <- app_assoc. reflexivity.
    + subst x. exists p, y, []. repeat split; [exact Hr|].
      intros z Hz Hzr Heq. apply Hm. rewrite <- Heq. apply Hc; assumption.
  - intros z Hz Hzr. apply in_app_or in Hz. destruct Hz as [Hz|[Hz|[]]].
    + right. apply Hc; assumption.
    + subst. left. reflexivity.
Qed.

Lemma scan_pool_inv pool : forall p seen out max_keywords,
  Inv p seen out ->
  match scan_pool pool seen out max_keywords with
  | Return o => exists q r s, pool = q ++ r /\ Inv (p ++ q) s o
  | Continue s o => Inv (p ++ pool) s o
  end.
Proof.
  induction pool as [|kw0 rest IH]; intros p seen out mk HI.
  - simpl. rewrite app_nil_r. exact HI.
  - simpl. destruct (rejected (PyStr.strip kw0)) eqn:Hr.
    + assert (HI' : Inv (p ++ [kw0]) seen out)
        by (apply Inv_skip; [exact HI | congruence]).
      specialize (IH _ _ _ mk HI').
      destruct (scan_pool rest seen out mk) as [o|s o].
      * destruct IH as [q [r [s [Hq Hs]]]]. exists (kw0 :: q), r, s.
        split; [rewrite Hq; reflexivity | rewrite <- app_assoc in Hs; exact Hs].
      * rewrite <- app_assoc in IH. exact IH.
    + destruct (PyStr.mem (PyStr.lower (PyStr.strip kw0)) seen) eqn:Hm.
      * assert (HI' : Inv (p ++ [kw0]) seen out)
          by (apply Inv_skip; [exact HI | intros _; apply mem_true_iff; exact Hm]).
        specialize (IH _ _ _ mk HI').
        destruct (scan_pool rest seen out mk) as [o|s o].
        -- destruct IH as [q [r [s [Hq Hs]]]]. exists (kw0 :: q), r, s.
           split; [rewrite Hq; reflexivity | rewrite <- app_assoc in Hs; exact Hs].
        -- rewrite <- app_assoc in IH. exact IH.
      * pose proof (Inv_add p seen out kw0 HI Hr Hm) as HI'.
        destruct (mk <=? Z.of_nat (length (out ++ [PyStr.strip kw0])))%Z.
        -- exists [kw0], rest, (PyStr.lower (PyStr.strip kw0) :: seen).
           split; [reflexivity | exact HI'].
        -- specialize (IH _ _ _ mk HI').
           destruct (scan_pool rest _ _ mk) as [o|s o].
           ++ destruct IH as [q [r [s [Hq Hs]]]]. exists (kw0 :: q), r, s.
              split; [rewrite Hq; reflexivity | rewrite <- app_assoc in Hs; exact Hs].
           ++ rewrite <- app_assoc in IH. exact IH.
Qed.

Lemma scan_pools_inv pools : forall p seen out max_keywords,
  Inv p seen out ->
  exists q r s, concat pools = q ++ r /\
    Inv (p ++ q) s (scan_pools pools seen out max_keywords).
Proof.
  induction pools as [|pool ps IH]; intros p seen out mk HI.
  - exists [], [], seen. simpl. rewrite app_nil_r. split; [reflexivity | exact HI].
  - simpl. pose proof (scan_pool_inv pool p seen out mk HI) as H.
    destruct (scan_pool pool seen out mk) as [o|s o].
    + destruct H as [q [r [s [Hq Hs]]]]. exists q, (r ++ concat ps), s.
      split; [rewrite Hq, app_assoc; reflexivity | exact Hs].
    + destruct (IH _ _ _ mk H) as [q [r [s' [Hq Hs]]]].
      exists (pool ++ q), r, s'. split.
      * rewrite Hq, app_assoc. reflexivity.
      * rewrite app_assoc. exact Hs.
Qed.

(** What every call of [_dedupe_and_optimize] returns. *)
Lemma dedupe_and_optimize_inv (m : Meta) (keywords : list string) (max_keywords : Z) :
  exists q r s, concat (priority_lists m) = q ++ r /\
    Inv q s (_dedupe_and_optimize m keywords max_keywords).
Proof.
  unfold _dedupe_and_optimize.
  destruct (scan_pools_inv (priority_lists m) [] [] [] max_keywords Inv_nil)
    as [q [r [s [Hq Hs]]]].
  exists q, r, s. split; [exact Hq | exact Hs].
Qed.

Lemma merged_keywords_nodup (m : Meta) (lang_pref : string) (n : Z) :
  NoDup (map PyStr.lower (merged_keywords m lang_pref n)).
Proof.
  unfold merged_keywords.
  destruct (dedupe_and_optimize_inv m
    (if String.eqb lang_pref "en" then
      m.(keywords_en) ++ m.(trending_keywords) ++ m.(mood_tags)
        ++ m.(style_tags) ++ m.(color_tags)
    else if String.eqb lang_pref "zh" then m.(keywords_zh)
    else
      m.(keywords_en) ++ m.(trending_keywords) ++ m.(keywords_zh)
        ++ m.(mood_tags) ++ m.(style_tags) ++ m.(color_tags)) n)
    as [q [r [s [_ Hs]]]].
  exact (inv_nodup _ _ _ Hs).
Qed.

(** Output only grows: the accumulated keywords are a prefix of the result. *)
Lemma scan_pool_prefix pool : forall seen out mk,
  match scan_pool pool seen out mk with
  | Return o => exists suf, o = out ++ suf
  | Continue _ o => exists suf, o = out ++ suf
  end.
Proof.
  induction pool as [|kw0 rest IH]; intros seen out mk; simpl.
  - exists []. rewrite app_nil_r. reflexivity.
  - destruct (rejected (PyStr.strip kw0)); [apply IH|].
    destruct (PyStr.mem (PyStr.lower (PyStr.strip kw0)) seen); [apply IH|].
    destruct (mk <=? Z.of_nat (length (out ++ [PyStr.strip kw0])))%Z.
    + exists [PyStr.strip kw0]. reflexivity.
    + specialize (IH (PyStr.lower (PyStr.strip kw0) :: seen) (out ++ [PyStr.strip kw0]) mk).
      destruct (scan_pool rest _ _ mk);
        destruct IH as [suf Hsuf]; exists (PyStr.strip kw0 :: suf);
        rewrite Hsuf, <- app_assoc; reflexivity.
Qed.

Lemma scan_pools_prefix pools : forall seen out mk,
  exists suf, scan_pools pools seen out mk = out ++ suf.
Proof.
  induction pools as [|p ps IH]; intros seen out mk; simpl.
  - exists []. rewrite app_nil_r. reflexivity.
  - pose proof (scan_pool_prefix p seen out mk) as H.
    destruct (scan_pool p seen out mk) as [o|s o]; destruct H as [suf Hsuf].
    + exists suf. exact Hsuf.
    + destruct (IH s o mk) as [suf' Hsuf']. exists (suf ++ suf').
      rewrite Hsuf', Hsuf, app_assoc. reflexivity.
Qed.

Lemma scan_pool_accept kw0 rest seen out mk :
  rejected (PyStr.strip kw0) = false ->
  PyStr.mem (PyStr.lower (PyStr.strip kw0)) seen = false ->
  (mk <=? Z.of_nat (length (out ++ [PyStr.strip kw0])))%Z = false ->
  scan_pool (kw0 :: rest) seen out mk
  = scan_pool rest (PyStr.lower (PyStr.strip kw0) :: seen) (out ++ [PyStr.strip kw0]) mk.
Proof. intros H1 H2 H3. simpl. rewrite H1, H2, H3. reflexivity. Qed.

Lemma scan_pool_dup kw0 rest seen out mk :
  rejected (PyStr.strip kw0) = false ->
  PyStr.mem (PyStr.lower (PyStr.strip kw0)) seen = true ->
  scan_pool (kw0 :: rest) seen out mk = scan_pool rest seen out mk.
Proof. intros H1 H2. simpl. rewrite H1, H2. reflexivity. Qed.

Lemma scan_pools_step p p' ps seen seen' out out' mk :
  scan_pool p seen out mk = scan_pool p' seen' out' mk ->
  scan_pools (p :: ps) seen out mk = scan_pools (p' :: ps) seen' out' mk.
Proof. intros H. simpl. rewrite H. reflexivity. Qed.

Lemma scan_pools_continue p ps seen out mk s o :
  scan_pool p seen out mk = Continue s o ->
  scan_pools (p :: ps) seen out mk = scan_pools ps s o mk.
Proof. intros H. simpl. rewrite H. reflexivity. Qed.

(** With a positive bound the cap holds. *)
Lemma scan_pool_bound pool : forall seen out mk,
  (Z.of_nat (length out) < mk)%Z ->
  match scan_pool pool seen out mk with
  | Return o => (Z.of_nat (length o) <= mk)%Z
  | Continue _ o => (Z.of_nat (length o) < mk)%Z
  end.
Proof.
  induction pool as [|kw0 rest IH]; intros seen out mk Hlt; simpl; [exact Hlt|].
  destruct (rejected (PyStr.strip kw0)); [apply IH; exact Hlt|].
  destruct (PyStr.mem (PyStr.lower (PyStr.strip kw0)) seen); [apply IH; exact Hlt|].
  destruct (mk <=? Z.of_nat (length (out ++ [PyStr.strip kw0])))%Z eqn:E.
  - rewrite length_app. simpl. lia.
  - apply IH. apply Z.leb_gt in E. exact E.
Qed.

Lemma merged_keywords_length_pos (m : Meta) (lang_pref : string) (n : Z) :
  (1 <= n)%Z -> (Z.of_nat (length (merged_keywords m lang_pref n)) <= n)%Z.
Proof.
  intros Hn. unfold merged_keywords, _dedupe_and_optimize.
  assert (G : forall pools seen out, (Z.of_nat (length out) < n)%Z ->
            (Z.of_nat (length (scan_pools pools seen out n)) <= n)%Z).
  { induction pools as [|p ps IH]; intros seen out Hlt; simpl; [lia|].
    pose proof (scan_pool_bound p seen out n Hlt) as H.
    destruct (scan_pool p seen out n); [exact H | apply IH; exact H]. }
  apply G. simpl. lia.
Qed.

Lemma dedupe_from_inv (items : list string) : forall seen,
  (forall z, In z (map PyStr.lower (Basic._dedupe_from items seen)) -> ~ In z seen) /\
  NoDup (map PyStr.lower (Basic._dedupe_from items seen)).
Proof.
  induction items as [|k0 rest IH]; intros seen; simpl.
  - split; [intros z []| constructor].
  - destruct (String.length (PyStr.strip k0) =? 0)%nat; [apply IH|].
    destruct (PyStr.mem (PyStr.lower (PyStr.strip k0)) seen) eqn:Hm; [apply IH|].
    apply mem_false_iff in Hm.
    destruct (IH (PyStr.lower (PyStr.strip k0) :: seen)) as [Hfresh Hnd].
    simpl. split.
    + intros z [Hz|Hz].
      * subst. exact Hm.
      * intros Hs. apply (Hfresh z Hz). right. exact Hs.
    + constructor; [|exact Hnd].
      intros Hin. apply (Hfresh _ Hin). left. reflexivity.
Qed.

Lemma basic_merged_keywords_nodup (m : Basic.Meta) (lang_pref : string) :
  NoDup (map PyStr.lower (Basic.merged_keywords m lang_pref)).
Proof.
  unfold Basic.merged_keywords, Basic._dedupe.
  destruct (String.eqb lang_pref "en"); [|destruct (String.eqb lang_pref "zh")];
    apply dedupe_from_inv.
Qed.

Lemma basic_dedupe_first (items : list string) : forall seen x,
  In x (Basic._dedupe_from items seen) ->
  exists pre raw post, items = pre ++ raw :: post /\ PyStr.strip raw = x /\ x <> "" /\
    ~ In (PyStr.lower x) seen /\
    forall y, In y pre -> PyStr.strip y <> "" -> PyStr.lower (PyStr.strip y) <> PyStr.lower x.
Proof.
  induction items as [|k0 rest IH]; intros seen x H; [destruct H|].
  simpl in H.
  destruct (String.length (PyStr.strip k0) =? 0)%nat eqn:El.
  - destruct (IH seen x H) as [pre [raw [post [Hi [Hs [Hne [Hseen Hy]]]]]]].
    exists (k0 :: pre), raw, post. rewrite Hi.
    split; [reflexivity|]. split; [exact Hs|]. split; [exact Hne|]. split; [exact Hseen|].
    intros y [<-|Hy'] Hy0; [|apply Hy; assumption].
    exfalso. apply Hy0. apply Nat.eqb_eq in El.
    destruct (PyStr.strip k0) eqn:Es; [reflexivity | simpl in El; discriminate].
  - destruct (PyStr.mem (PyStr.lower (PyStr.strip k0)) seen) eqn:Hm.
    + apply mem_true_iff in Hm.
      destruct (IH seen x H) as [pre [raw [post [Hi [Hs [Hne [Hseen Hy]]]]]]].
      exists (k0 :: pre), raw, post. rewrite Hi.
      split; [reflexivity|]. split; [exact Hs|]. split; [exact Hne|]. split; [exact Hseen|].
      intros y [<-|Hy'] Hy0; [|apply Hy; assumption].
      intros E. apply Hseen. rewrite <- E. exact Hm.
    + apply mem_false_iff in Hm. destruct H as [<-|H].
      * exists [], k0, rest. split; [reflexivity|]. split; [reflexivity|].
        split; [intros E; rewrite E in El; discriminate|]. split; [exact Hm|].
        intros y [].
      * destruct (IH _ x H) as [pre [raw [post [Hi [Hs [Hne [Hseen Hy]]]]]]].
        exists (k0 :: pre), raw, post. rewrite Hi.
        split; [reflexivity|]. split; [exact Hs|]. split; [exact Hne|].
        split; [intros Hx; apply Hseen; right; exact Hx|].
        intros y [<-|Hy'] Hy0; [|apply Hy; assumption].
        intros E. apply Hseen. left. exact E.
Qed.

Lemma basic_merged_candidates (m : Basic.Meta) (lang_pref : string) :
  Basic.merged_keywords m lang_pref = Basic._dedupe (Checks.basic_candidates m lang_pref).
Proof.
  unfold Basic.merged_keywords, Checks.basic_candidates.
  destruct (String.eqb lang_pref "en"); [|destruct (String.eqb lang_pref "zh")]; reflexivity.
Qed.

Lemma merged_keywords_unfold (m : Meta) (lang_pref : string) (n : Z) :
  merged_keywords m lang_pref n = scan_pools (priority_lists m) [] [] n.
Proof. reflexivity. Qed.

Lemma calculate_seo_score_spec (m : Meta) (a : Enrich.ImageAnalysis) :
  (0 <= a.(Enrich.technical_quality) <= 1)%Q ->
  (0 <= Enrich._calculate_seo_score m a <= 1)%Q /\
  (Enrich._calculate_seo_score m a == Qmin (fold_right Qplus 0 (Enrich.seo_components m a)) 1)%Q /\
  Forall (fun c => 0 <= c <= 1#5)%Q (Enrich.seo_components m a).
Proof.
  intros [H0 H1]. unfold Enrich._calculate_seo_score, Enrich.seo_components.
  destruct (Enrich.in_range 30 60 (String.length m.(title)));
  destruct (Enrich.in_range 100 200 (String.length m.(description)));
  destruct (Enrich.in_range 20 50 (length (merged_keywords m "en,zh" 50)));
  destruct m.(trending_keywords); simpl;
  (split; [split; [apply Q.min_glb; lra | apply Q.le_min_r] |
   split; [apply Q.min_compat; [lra | reflexivity] |
           repeat constructor; lra]]).
Qed.

Lemma Qle_bool_false (x y : Q) : Qle_bool x y = false -> ~ (x <= y)%Q.
Proof. intros E H. apply Qle_bool_iff in H. congruence. Qed.

Lemma assess_market_potential_spec (m : Meta) (a : Enrich.ImageAnalysis) :
  let s := m.(seo_score) in
  let t := a.(Enrich.technical_quality) in
  let hi := (4#5 <= s /\ 4#5 <= t)%Q in
  let med := (3#5 <= s /\ 3#5 <= t)%Q in
  (Enrich._assess_market_potential m a = "High" <-> hi) /\
  (Enrich._assess_market_potential m a = "Medium" <-> ~ hi /\ med) /\
  (Enrich._assess_market_potential m a = "Low" <-> ~ hi /\ ~ med).
Proof.
  cbv zeta. unfold Enrich._assess_market_potential.
  destruct (Qle_bool (4#5) m.(seo_score)) eqn:E1;
  destruct (Qle_bool (4#5) a.(Enrich.technical_quality)) eqn:E2;
  destruct (Qle_bool (3#5) m.(seo_score)) eqn:E3;
  destruct (Qle_bool (3#5) a.(Enrich.technical_quality)) eqn:E4;
  repeat match goal with
  | H : Qle_bool _ _ = true |- _ => apply Qle_bool_iff in H
  | H : Qle_bool _ _ = false |- _ => apply Qle_bool_false in H
  end;
  simpl; repeat split; intros;
  repeat match goal with H : _ /\ _ |- _ => destruct H end;
  try discriminate; try reflexivity; tauto.
Qed.

End Facts.

(* ================================================================= *)
(** * Claims *)

Import Pro Facts.

(** Side conditions of [scan_pool_accept] and [scan_pool_dup]. *)
Ltac side :=
  first [ reflexivity | assumption
        | apply mem_false_iff; simpl; intuition
        | apply mem_true_iff; simpl; tauto ].

(** C1 (amended).  Trending pool [[a]], primary pool starting
    [[b; a; c]], where [a], [b], [c] are trimmed keywords inside the
    length bounds and pairwise distinct after lower-casing: for any
    language preference, [merged_keywords meta lang 5] starts with
    [a; b; c], and [a] occurs exactly once after lower-casing. *)
Theorem c1_priority_order (m : Meta) (lang : string) (a b c : string)
    (rest : list string) :
  m.(trending_keywords) = [a] ->
  m.(keywords_en) = b :: a :: c :: rest ->
  PyStr.strip a = a -> PyStr.strip b = b -> PyStr.strip c = c ->
  rejected a = false -> rejected b = false -> rejected c = false ->
  PyStr.lower a <> PyStr.lower b -> PyStr.lower a <> PyStr.lower c ->
  PyStr.lower b <> PyStr.lower c ->
  firstn 3 (merged_keywords m lang 5) = [a; b; c] /\
  count_occ string_dec (map PyStr.lower (merged_keywords m lang 5)) (PyStr.lower a) = 1%nat.
Proof.
  intros Ht He Sa Sb Sc Ra Rb Rc Dab Dac Dbc.
  assert (Hall : exists suf, merged_keywords m lang 5 = [a; b; c] ++ suf).
  { rewrite merged_keywords_unfold. unfold priority_lists. rewrite Ht, He.
    change (firstn 10 (b :: a :: c :: rest)) with (b :: a :: c :: firstn 7 rest).
    assert (H1 : scan_pool [a] [] [] 5 = Continue [PyStr.lower a] [a]).
    { rewrite scan_pool_accept by (rewrite ?Sa; side). rewrite Sa. reflexivity. }
    assert (H2 : scan_pool (b :: a :: c :: firstn 7 rest) [PyStr.lower a] [a] 5
                 = scan_pool (firstn 7 rest) [PyStr.lower c; PyStr.lower b; PyStr.lower a]
                     [a; b; c] 5).
    { rewrite scan_pool_accept by (rewrite ?Sb; side). rewrite Sb.
      rewrite scan_pool_dup by (rewrite ?Sa; side).
      rewrite scan_pool_accept by (rewrite ?Sc; side). rewrite Sc.
      reflexivity. }
    rewrite (scan_pools_continue _ _ _ _ _ _ _ H1).
    rewrite (scan_pools_step _ _ _ _ _ _ _ _ H2).
    apply scan_pools_prefix. }
  destruct Hall as [suf Hsuf]. split.
  - rewrite Hsuf. reflexivity.
  - apply (proj1 (NoDup_count_occ' string_dec _) (merged_keywords_nodup m lang 5)).
    rewrite Hsuf. simpl. left. reflexivity.
Qed.

(** C1 witness: the amended claim at [aaa]/[bbb]/[ccc]. *)
Lemma c1_priority_order_witness :
  firstn 3 (merged_keywords
     (Inputs.meta "" "" ["bbb"; "aaa"; "ccc"] [] ["aaa"] [] [] [] [] 0 "Medium")
     "both" 5) = ["aaa"; "bbb"; "ccc"] /\
  count_occ string_dec (map PyStr.lower (merged_keywords
     (Inputs.meta "" "" ["bbb"; "aaa"; "ccc"] [] ["aaa"] [] [] [] [] 0 "Medium")
     "both" 5)) (PyStr.lower "aaa") = 1%nat.
Proof.
  apply (c1_priority_order _ "both" "aaa" "bbb" "ccc" []);
    try reflexivity; intro H; vm_compute in H; discriminate H.
Defined.

(** C1 counterexample: with the claim's own keywords [a], [b], [c]
    (one character, below [MIN_KEYWORD_LENGTH]), the result is empty,
    so it does not start with [a; b; c]. *)
Lemma c1_priority_order_counterexample :
  merged_keywords Inputs.abc_meta "both" 5 = [] /\
  firstn 3 (merged_keywords Inputs.abc_meta "both" 5) <> ["a"; "b"; "c"].
Proof. vm_compute. split; [reflexivity | discriminate]. Qed.

(** C4 (amended).  The Pro [_force_json] is total; when neither the
    trimmed, unfenced text nor its first-[{]-to-last-[}] substring
    decodes, it returns exactly the record [title = Untitled,
    description = Stock photo, keywords_en = [], keywords_zh = []];
    the stockmate.py [_force_json] raises [ValueError] there. *)
Theorem c4_force_json_fallback (s : string) :
  Json.loads (Json.unfence s) = None ->
  (forall sub, Json.brace_match (Json.unfence s) = Some sub -> Json.loads sub = None) ->
  Json.force_json_pro s = Json.fallback_pro /\
  exists msg, Json.force_json_basic s = inr msg.
Proof.
  intros H1 H2. unfold Json.force_json_pro, Json.force_json_basic. cbv zeta.
  rewrite H1. destruct (Json.brace_match (Json.unfence s)) as [sub|] eqn:Hb.
  - rewrite (H2 sub eq_refl). split; [reflexivity | eexists; reflexivity].
  - split; [reflexivity | eexists; reflexivity].
Qed.

(** C4 witness: the text [garbage]. *)
Lemma c4_force_json_fallback_witness :
  Json.force_json_pro "garbage" = Json.fallback_pro /\
  exists msg, Json.force_json_basic "garbage" = inr msg.
Proof.
  apply c4_force_json_fallback.
  - vm_compute. reflexivity.
  - intros sub H. vm_compute in H. discriminate H.
Defined.

(** C4 counterexample: on [garbage] the stockmate.py [_force_json]
    raises, and the Pro fallback record has no [category] key. *)
Lemma c4_force_json_counterexample :
  (exists msg, Json.force_json_basic "garbage" = inr msg) /\
  Json.force_json_pro "garbage" = Json.fallback_pro /\
  match Json.fallback_pro with
  | Json.JObj kv => Config.dict_get "category" kv = None
  | _ => False
  end.
Proof. vm_compute. split; [eexists; reflexivity | split; reflexivity]. Qed.

(** C5 (amended).  On an empty batch [analyze_batch_trends] raises
    nothing and returns empty keyword, trend-score, category and
    market-potential maps, with [avg_seo_score] the NaN of [np.mean]. *)
Theorem c5_empty_batch :
  Trends.analyze_batch_trends [] =
  Some {| Trends.top_keywords := []; Trends.trend_scores := [];
          Trends.top_categories := []; Trends.avg_seo_score := Trends.NaN;
          Trends.market_potential_distribution := [] |}.
Proof. reflexivity. Qed.

(** C5 counterexample: the average of the empty batch is NaN, not 0.0. *)
Lemma c5_empty_batch_counterexample :
  option_map Trends.avg_seo_score (Trends.analyze_batch_trends []) = Some Trends.NaN /\
  Trends.NaN <> Trends.Fin 0.
Proof. split; [reflexivity | discriminate]. Qed.

(** C2 (code bug).  With preference ["zh"] the Pro [merged_keywords]
    returns the English pools, not [keywords_zh]; the stockmate.py
    [merged_keywords] returns [keywords_zh] for the same input. *)
Theorem c2_zh_branch_ignored :
  merged_keywords Inputs.tree_meta "zh" 50 = ["tree"] /\
  Inputs.tree_meta.(keywords_zh) = ["senlin"] /\
  Basic.merged_keywords Inputs.tree_basic_meta "zh" = ["senlin"].
Proof. vm_compute. repeat split. Qed.

(** C3 (amended).  [get_platform_config] never fails: it lower-cases
    the identifier and returns the entry of [shutterstock],
    [adobe_stock] or [getty_images] when the result is that name, and
    the shutterstock entry for every other identifier. *)
Theorem c3_unknown_platform_defaults (platform : string) :
  (PyStr.lower platform = "shutterstock" ->
     Config.get_platform_config platform = Config.shutterstock) /\
  (PyStr.lower platform = "adobe_stock" ->
     Config.get_platform_config platform = Config.adobe_stock) /\
  (PyStr.lower platform = "getty_images" ->
     Config.get_platform_config platform = Config.getty_images) /\
  (~ In (PyStr.lower platform) ["shutterstock"; "adobe_stock"; "getty_images"] ->
     Config.get_platform_config platform = Config.shutterstock).
Proof.
  unfold Config.get_platform_config. simpl.
  split; [intros E; rewrite E; reflexivity|].
  split; [intros E; rewrite E; reflexivity|].
  split; [intros E; rewrite E; reflexivity|].
  intros Hn.
  destruct (String.eqb_spec (PyStr.lower platform) "shutterstock") as [E|_];
    [exfalso; apply Hn; left; symmetry; exact E|].
  destruct (String.eqb_spec (PyStr.lower platform) "adobe_stock") as [E|_];
    [exfalso; apply Hn; right; left; symmetry; exact E|].
  destruct (String.eqb_spec (PyStr.lower platform) "getty_images") as [E|_];
    [exfalso; apply Hn; right; right; left; symmetry; exact E|].
  reflexivity.
Qed.

(** C3 witness: ["Adobe_Stock"] gets the adobe_stock entry and
    ["not_a_platform"] the shutterstock one. *)
Lemma c3_unknown_platform_defaults_witness :
  Config.get_platform_config "Adobe_Stock" = Config.adobe_stock /\
  Config.get_platform_config "not_a_platform" = Config.shutterstock.
Proof.
  split.
  - apply (proj1 (proj2 (c3_unknown_platform_defaults "Adobe_Stock"))). vm_compute. reflexivity.
  - apply (proj2 (proj2 (proj2 (c3_unknown_platform_defaults "not_a_platform")))).
    vm_compute. intros [H|[H|[H|[]]]]; discriminate H.
Defined.

(** C3 counterexample: ["not_a_platform"] yields the shutterstock
    configuration instead of an error. *)
Lemma c3_unknown_platform_counterexample :
  Config.get_platform_config "not_a_platform" = Config.shutterstock.
Proof. reflexivity. Qed.

(** C6 (code bug).  With [max_keywords = 0] one keyword is still
    returned: the cap is tested only after an append. *)
Theorem c6_zero_cap_returns_one :
  merged_keywords Inputs.tree_trending_meta "en,zh" 0 = ["tree"] /\
  (0 < Z.of_nat (length (merged_keywords Inputs.tree_trending_meta "en,zh" 0)))%Z.
Proof. vm_compute. split; reflexivity. Qed.

(** C7.  [merged_keywords] never returns two keywords equal after
    lower-casing, and each returned keyword is the trimmed form (with
    its casing) of a candidate of the priority pools, no earlier
    accepted candidate of which has the same lower-cased form.  The
    same holds for the stockmate.py [merged_keywords]: no lower-cased
    duplicate, and each returned keyword is the trimmed, non-empty form
    (with its casing) of an entry of the list handed to [_dedupe], no
    earlier non-empty entry of which has the same lower-cased form. *)
Theorem c7_case_insensitive_dedupe (m : Meta) (lang_pref : string) (n : Z) :
  NoDup (map PyStr.lower (merged_keywords m lang_pref n)) /\
  (forall x, In x (merged_keywords m lang_pref n) ->
     exists pre raw post,
       concat (priority_lists m) = pre ++ raw :: post /\
       PyStr.strip raw = x /\ rejected x = false /\
       forall y, In y pre -> rejected (PyStr.strip y) = false ->
                 PyStr.lower (PyStr.strip y) <> PyStr.lower x) /\
  (forall bm : Basic.Meta,
     NoDup (map PyStr.lower (Basic.merged_keywords bm lang_pref)) /\
     forall x, In x (Basic.merged_keywords bm lang_pref) ->
       exists pre raw post,
         Checks.basic_candidates bm lang_pref = pre ++ raw :: post /\
         PyStr.strip raw = x /\ x <> "" /\
         forall y, In y pre -> PyStr.strip y <> "" ->
                   PyStr.lower (PyStr.strip y) <> PyStr.lower x).
Proof.
  split; [apply merged_keywords_nodup|]. split.
  2:{ intros bm. split; [apply basic_merged_keywords_nodup|].
      intros x Hx. rewrite basic_merged_candidates in Hx.
      destruct (basic_dedupe_first _ [] x Hx) as [pre [raw [post [Hi [Hs [Hne [_ Hy]]]]]]].
      exists pre, raw, post. auto. }
  intros x Hx. rewrite merged_keywords_unfold in Hx.
  destruct (scan_pools_inv (priority_lists m) [] [] [] n Inv_nil)
    as [q [r [s [Hq Hs]]]].
  destruct (inv_first _ _ _ Hs x Hx) as [pre [raw [post [Hp Hrest]]]].
  exists pre, raw, (post ++ r). split; [|exact Hrest].
  simpl in Hp. rewrite Hq, Hp, <- app_assoc. reflexivity.
Qed.

(** C10.  The Pro [merged_keywords] does not depend on the language
    preference. *)
Theorem c10_lang_pref_irrelevant (m : Meta) (p1 p2 : string) (n : Z) :
  merged_keywords m p1 n = merged_keywords m p2 n.
Proof. rewrite !merged_keywords_unfold. reflexivity. Qed.

(** C8.  When [technical_quality] is in [0,1] the [seo_score] set by
    [_enhance_with_seo] is in [0,1]: it is [min] of the sum of the five
    components (title length, description length, merged keyword
    count, trending keywords, quality) and [1], each component lying in
    [0, 0.2]; the components are read on the meta whose trending
    keywords have just been set. *)
Theorem c8_seo_score_bounds (m : Meta) (a : Enrich.ImageAnalysis) (platform : string) :
  (0 <= a.(Enrich.technical_quality) <= 1)%Q ->
  let m1 := Enrich.set_trending m
              (Enrich._get_relevant_trending_keywords m.(keywords_en) a) in
  let s := (Enrich._enhance_with_seo m a platform).(seo_score) in
  (0 <= s <= 1)%Q /\
  (s == Qmin (fold_right Qplus 0 (Enrich.seo_components m1 a)) 1)%Q /\
  Forall (fun c => 0 <= c <= 1#5)%Q (Enrich.seo_components m1 a).
Proof.
  intros Hq m1 s.
  assert (Hs : s = Enrich._calculate_seo_score m1 a) by reflexivity.
  rewrite Hs. apply calculate_seo_score_spec. exact Hq.
Qed.

(** C8 witness: quality 0.9 on a meta with no text. *)
Lemma c8_seo_score_bounds_witness :
  (0 <= (Enrich._enhance_with_seo Inputs.tree_meta (Inputs.analysis_q (9#10))
           "shutterstock").(seo_score) <= 1)%Q.
Proof.
  apply (c8_seo_score_bounds Inputs.tree_meta (Inputs.analysis_q (9#10)) "shutterstock").
  vm_compute. split; discriminate.
Defined.

(** C9.  The [market_potential] set by [_enhance_with_seo] is High
    exactly when [seo_score >= 0.8] and [technical_quality >= 0.8],
    otherwise Medium exactly when both are [>= 0.6], otherwise Low; the
    spec's three examples. *)
Theorem c9_market_potential (m : Meta) (a : Enrich.ImageAnalysis) (platform : string) :
  let m' := Enrich._enhance_with_seo m a platform in
  let s := m'.(seo_score) in
  let t := a.(Enrich.technical_quality) in
  let hi := (4#5 <= s /\ 4#5 <= t)%Q in
  let med := (3#5 <= s /\ 3#5 <= t)%Q in
  (m'.(market_potential) = "High" <-> hi) /\
  (m'.(market_potential) = "Medium" <-> ~ hi /\ med) /\
  (m'.(market_potential) = "Low" <-> ~ hi /\ ~ med) /\
  Enrich._assess_market_potential
    (Inputs.meta "" "" [] [] [] [] [] [] [] (17#20) "Medium") (Inputs.analysis_q (9#10)) = "High" /\
  Enrich._assess_market_potential
    (Inputs.meta "" "" [] [] [] [] [] [] [] (13#20) "Medium") (Inputs.analysis_q (13#20)) = "Medium" /\
  Enrich._assess_market_potential
    (Inputs.meta "" "" [] [] [] [] [] [] [] (3#10) "Medium") (Inputs.analysis_q (3#10)) = "Low".
Proof.
  intros m' s t hi med.
  set (m1 := Enrich.set_trending m
               (Enrich._get_relevant_trending_keywords m.(keywords_en) a)).
  set (m2 := Enrich.set_seo_score m1 (Enrich._calculate_seo_score m1 a)).
  assert (Hmp : m'.(market_potential) = Enrich._assess_market_potential m2 a) by reflexivity.
  assert (Hs : s = m2.(seo_score)) by reflexivity.
  rewrite Hmp. unfold hi, med, t. rewrite Hs.
  destruct (assess_market_potential_spec m2 a) as [H1 [H2 H3]].
  split; [exact H1|]. split; [exact H2|]. split; [exact H3|].
  vm_compute. repeat split.
Qed.

(* ================================================================= *)
(** * Sample runs *)

(** The self-test of stockmate.py, with the Chinese keywords transliterated. *)
Example basic_selftest :
  Basic.merged_keywords {| Basic.title := "T"; Basic.description := "D";
     Basic.keywords_en := ["Tree"; "tree"; " Forest "];
     Basic.keywords_zh := ["shu"; "senlin"] |} "en,zh"
  = ["Tree"; "Forest"; "shu"; "senlin"].
Proof. reflexivity. Qed.

(** The priority order on three-letter keywords. *)
Example pro_c1_try :
  merged_keywords
    {| title := ""; description := ""; keywords_en := ["bbb"; "aAa"; "ccc"; "d1d"; "e1e"; "f1f"; "g1g"; "h1h"; "i1i"; "j1j"];
       keywords_zh := []; category := ""; subcategory := "";
       mood_tags := []; style_tags := []; color_tags := [];
       technical_tags := []; trending_keywords := ["aaa"];
       seo_score := 0; market_potential := "Medium" |} "both" 5
  = ["aaa"; "bbb"; "ccc"; "d1d"; "e1e"].
Proof. reflexivity. Qed.


(** [_force_json] on garbage, a fenced block, prose around an object,
    a bare number; [json.loads] on a few literals. *)
Example json_t1 : Json.force_json_pro "garbage" = Json.fallback_pro.
Proof. vm_compute. reflexivity. Qed.
Example json_t2 : Json.force_json_pro (("```json" ++ Inputs.nl ++ "{" ++ Inputs.dq ++ "title" ++ Inputs.dq ++ ":" ++ Inputs.dq ++ "T" ++ Inputs.dq ++ "}" ++ Inputs.nl ++ "```")%string) = Json.JObj [("title", Json.JStr "T")].
Proof. vm_compute. reflexivity. Qed.
Example json_t3 : Json.force_json_pro (("noise before {" ++ Inputs.nl ++ " " ++ Inputs.dq ++ "y" ++ Inputs.dq ++ ": 2" ++ Inputs.nl ++ "} noise after")%string) = Json.JObj [("y", Json.JNum "2")].
Proof. vm_compute. reflexivity. Qed.
Example json_t4 : Json.force_json_pro "123" = Json.JNum "123".
Proof. vm_compute. reflexivity. Qed.
Example json_t5 : Json.loads (("[1, 2.5e3, {" ++ Inputs.dq ++ "a" ++ Inputs.dq ++ ": [true, null]}, " ++ Inputs.dq ++ "x\n" ++ Inputs.dq ++ "]")%string) = Some (Json.JArr [Json.JNum "1"; Json.JNum "2.5e3"; Json.JObj [("a", Json.JArr [Json.JBool true; Json.JNull])]; Json.JStr (String (Json.chr 120) Inputs.nl)]).
Proof. vm_compute. reflexivity. Qed.
Example json_t6 : Json.loads "[1,]" = None /\ Json.loads "01" = None /\ Json.loads "1." = None /\ Json.loads " -0.5E+2 " = Some (Json.JNum "-0.5E+2").
Proof. vm_compute. repeat split. Qed.

(* ================================================================= *)
(** * Further properties of the code *)

(** ** [str.strip] and [str.lower] *)

Module StrFacts.

Lemma lstrip_length l : (length (PyStr.lstrip_l l) <= length l)%nat.
Proof.
  induction l as [|c r IH]; simpl; [lia|].
  destruct (PyStr.is_space c); simpl; lia.
Qed.

Lemma lstrip_idem l : PyStr.lstrip_l (PyStr.lstrip_l l) = PyStr.lstrip_l l.
Proof.
  induction l as [|c r IH]; simpl; [reflexivity|].
  destruct (PyStr.is_space c) eqn:E; [exact IH|]. simpl. rewrite E. reflexivity.
Qed.

Lemma lstrip_suffix l : exists p, l = p ++ PyStr.lstrip_l l.
Proof.
  induction l as [|c r [p Hp]]; simpl; [exists []; reflexivity|].
  destruct (PyStr.is_space c).
  - exists (c :: p). simpl. rewrite <- Hp. reflexivity.
  - exists []. reflexivity.
Qed.

Lemma rstrip_prefix l : exists q, l = PyStr.rstrip_l l ++ q.
Proof.
  unfold PyStr.rstrip_l. destruct (lstrip_suffix (rev l)) as [p Hp].
  exists (rev p). rewrite <- rev_app_distr, <- Hp, rev_involutive. reflexivity.
Qed.

Lemma lstrip_fixed_head l :
  PyStr.lstrip_l l = l -> l = [] \/ exists c r, l = c :: r /\ PyStr.is_space c = false.
Proof.
  intros H. destruct l as [|c r]; [left; reflexivity|]. right. exists c, r.
  split; [reflexivity|]. simpl in H. destruct (PyStr.is_space c) eqn:E; [|reflexivity].
  exfalso. pose proof (lstrip_length r) as Hl. rewrite H in Hl. simpl in Hl. lia.
Qed.

Lemma lstrip_rstrip_fixed x :
  PyStr.lstrip_l x = x -> PyStr.lstrip_l (PyStr.rstrip_l x) = PyStr.rstrip_l x.
Proof.
  intros Hx. destruct (rstrip_prefix x) as [q Hq].
  destruct (PyStr.rstrip_l x) as [|c r]; [reflexivity|].
  destruct (lstrip_fixed_head x Hx) as [H0|[c' [r' [H1 H2]]]].
  - subst x. discriminate.
  - rewrite H1 in Hq. simpl in Hq. injection Hq as Hc _. subst c'.
    simpl. rewrite H2. reflexivity.
Qed.

Lemma rstrip_idem x : PyStr.rstrip_l (PyStr.rstrip_l x) = PyStr.rstrip_l x.
Proof. unfold PyStr.rstrip_l. rewrite rev_involutive, lstrip_idem. reflexivity. Qed.

(** [s.strip().strip() == s.strip()] *)
Lemma strip_idem s : PyStr.strip (PyStr.strip s) = PyStr.strip s.
Proof.
  unfold PyStr.strip. rewrite list_ascii_of_string_of_list_ascii. f_equal.
  rewrite lstrip_rstrip_fixed by apply lstrip_idem. apply rstrip_idem.
Qed.

Lemma lstrip_nospace l :
  Forall (fun c => PyStr.is_space c = false) l -> PyStr.lstrip_l l = l.
Proof.
  intros H. destruct l as [|c r]; [reflexivity|].
  inversion H as [|? ? Hc _]; subst. simpl. rewrite Hc. reflexivity.
Qed.

Lemma strip_nospace s :
  Forall (fun c => PyStr.is_space c = false) (list_ascii_of_string s) -> PyStr.strip s = s.
Proof.
  intros H. unfold PyStr.strip, PyStr.rstrip_l.
  rewrite (lstrip_nospace _ H).
  rewrite (lstrip_nospace (rev (list_ascii_of_string s))) by (apply Forall_rev; exact H).
  rewrite rev_involutive. apply string_of_list_ascii_of_string.
Qed.

Lemma lower_id s :
  Forall (fun c => PyStr.lower_char c = c) (list_ascii_of_string s) -> PyStr.lower s = s.
Proof.
  induction s as [|c r IH]; intros H; simpl; [reflexivity|].
  inversion H as [|? ? Hc Hr]; subst. rewrite Hc, (IH Hr). reflexivity.
Qed.

Lemma clean_kw_spec x :
  Checks.clean_kw x = true -> PyStr.strip x = x /\ x <> "" /\ PyStr.lower x = x.
Proof.
  unfold Checks.clean_kw. intros H.
  apply andb_prop in H as [H H3]. apply andb_prop in H as [H1 H2].
  apply String.eqb_eq in H1, H3. apply negb_true_iff in H2.
  split; [exact H1|]. split; [|exact H3].
  intros E. subst. discriminate.
Qed.

Lemma nodupb_spec l : Checks.nodupb l = true -> NoDup l.
Proof.
  induction l as [|x r IH]; simpl; intros H; [constructor|].
  apply andb_prop in H as [H1 H2]. apply negb_true_iff in H1.
  constructor; [apply Facts.mem_false_iff; exact H1 | apply IH; exact H2].
Qed.

Lemma forallb_mem_spec (l pool : list string) :
  forallb (fun x => PyStr.mem x pool) l = true -> Forall (fun x => In x pool) l.
Proof.
  intros H. apply Forall_forall. intros x Hx.
  rewrite forallb_forall in H. apply Facts.mem_true_iff, H, Hx.
Qed.

End StrFacts.

(** ** The keyword merge of stockmate_pro.py *)

Module MergeFacts.
Import Pro Facts.

Lemma scan_pool_length pool : forall seen out mk,
  match scan_pool pool seen out mk with
  | Return o => (length o <= length out + length pool)%nat
  | Continue _ o => (length o <= length out + length pool)%nat
  end.
Proof.
  induction pool as [|kw0 rest IH]; intros seen out mk; simpl; [lia|].
  destruct (rejected (PyStr.strip kw0)).
  { specialize (IH seen out mk). destruct (scan_pool rest seen out mk); lia. }
  destruct (PyStr.mem (PyStr.lower (PyStr.strip kw0)) seen).
  { specialize (IH seen out mk). destruct (scan_pool rest seen out mk); lia. }
  destruct (mk <=? Z.of_nat (length (out ++ [PyStr.strip kw0])))%Z.
  - rewrite length_app. simpl. lia.
  - specialize (IH (PyStr.lower (PyStr.strip kw0) :: seen) (out ++ [PyStr.strip kw0]) mk).
    rewrite length_app in IH. simpl in IH.
    destruct (scan_pool rest _ _ mk); lia.
Qed.

Lemma scan_pools_length pools : forall seen out mk,
  (length (scan_pools pools seen out mk) <= length out + length (concat pools))%nat.
Proof.
  induction pools as [|p ps IH]; intros seen out mk; simpl; [lia|].
  pose proof (scan_pool_length p seen out mk) as H.
  rewrite length_app.
  destruct (scan_pool p seen out mk) as [o|s o]; [lia|].
  specialize (IH s o mk). lia.
Qed.

(** The number of merged keywords is bounded by what the five pools offer. *)
Lemma merged_keywords_pool_bound (m : Meta) (lang_pref : string) (n : Z) :
  (length (merged_keywords m lang_pref n) <=
     length m.(trending_keywords) + Nat.min 10 (length m.(keywords_en))
     + length m.(mood_tags) + length m.(style_tags) + length m.(color_tags)
     + length m.(technical_tags))%nat.
Proof.
  rewrite merged_keywords_unfold.
  pose proof (scan_pools_length (priority_lists m) [] [] n) as H.
  unfold priority_lists in *. cbn [concat] in H.
  rewrite app_nil_r, !length_app, length_firstn in H.
  change (length (@nil string)) with 0%nat in H. lia.
Qed.

(** Every merged keyword is stripped and of length 3 to 30. *)
Lemma merged_keywords_clean (m : Meta) (lang_pref : string) (n : Z) :
  Forall (fun x => PyStr.strip x = x /\ (3 <= String.length x <= 30)%nat)
         (merged_keywords m lang_pref n).
Proof.
  apply Forall_forall. intros x Hx.
  destruct (dedupe_and_optimize_inv m [] n) as [q [r [s [_ Hs]]]].
  change (merged_keywords m lang_pref n) with (_dedupe_and_optimize m [] n) in Hx.
  destruct (inv_first _ _ _ Hs x Hx) as [pre [raw [post [_ [Hraw [Hrej _]]]]]].
  split.
  - rewrite <- Hraw. apply StrFacts.strip_idem.
  - unfold rejected, Config.MIN_KEYWORD_LENGTH, Config.MAX_KEYWORD_LENGTH in Hrej.
    apply orb_false_iff in Hrej as [Hrej H3]. apply orb_false_iff in Hrej as [H1 H2].
    apply Nat.eqb_neq in H1. apply Nat.ltb_ge in H2, H3. lia.
Qed.

(** At scoring time the merged list has fewer than 20 keywords when the
    mood, style, colour and technical tags are at most four. *)
Lemma enhance_merged_small (m : Meta) (a : Enrich.ImageAnalysis) :
  (length m.(mood_tags) + length m.(style_tags) + length m.(color_tags)
     + length m.(technical_tags) <= 4)%nat ->
  (length (merged_keywords
     (Enrich.set_trending m (Enrich._get_relevant_trending_keywords m.(keywords_en) a))
     "en,zh" 50) < 20)%nat.
Proof.
  intros H.
  set (t := Enrich._get_relevant_trending_keywords m.(keywords_en) a).
  assert (Ht : (length t <= 5)%nat)
    by (unfold t, Enrich._get_relevant_trending_keywords; rewrite length_firstn; lia).
  pose proof (merged_keywords_pool_bound (Enrich.set_trending m t) "en,zh" 50) as Hb.
  change (trending_keywords (Enrich.set_trending m t)) with t in Hb.
  change (keywords_en (Enrich.set_trending m t)) with (keywords_en m) in Hb.
  change (mood_tags (Enrich.set_trending m t)) with (mood_tags m) in Hb.
  change (style_tags (Enrich.set_trending m t)) with (style_tags m) in Hb.
  change (color_tags (Enrich.set_trending m t)) with (color_tags m) in Hb.
  change (technical_tags (Enrich.set_trending m t)) with (technical_tags m) in Hb.
  lia.
Qed.

(** Without the keyword-count bonus the score is at most
    [0.6 + 0.2 * technical_quality]. *)
Lemma seo_no_count_bonus (m : Meta) (a : Enrich.ImageAnalysis) :
  (length (merged_keywords m "en,zh" 50) < 20)%nat ->
  (Enrich._calculate_seo_score m a <= (3#5) + a.(Enrich.technical_quality) * (1#5))%Q.
Proof.
  intros H. unfold Enrich._calculate_seo_score.
  assert (Hk : Enrich.in_range 20 50 (length (merged_keywords m "en,zh" 50)) = false).
  { unfold Enrich.in_range. apply andb_false_iff. left. apply Nat.leb_gt. exact H. }
  rewrite Hk.
  destruct (Enrich.in_range 30 60 (String.length m.(title)));
  destruct (Enrich.in_range 100 200 (String.length m.(description)));
  destruct m.(trending_keywords);
  (eapply Qle_trans; [apply Q.le_min_l | lra]).
Qed.

End MergeFacts.

(** ** [ImageAnalyzer] *)

Module AnalyzerFacts.
Import Enrich Analyzer.
Local Open Scope Q_scope.

Lemma gt_true a b : gt a b = true <-> b < a.
Proof. unfold gt. destruct (Qlt_le_dec b a); split; intros; auto; [discriminate | lra]. Qed.

Lemma gt_false a b : gt a b = false <-> a <= b.
Proof. unfold gt. destruct (Qlt_le_dec b a); split; intros; auto; [discriminate | lra]. Qed.

Lemma ge_true a b : ge a b = true <-> b <= a.
Proof. unfold ge. apply Qle_bool_iff. Qed.

Lemma ge_false a b : ge a b = false <-> a < b.
Proof.
  unfold ge. split; intros H.
  - apply Qnot_le_lt. intros Hle. apply Qle_bool_iff in Hle. congruence.
  - destruct (Qle_bool b a) eqn:E; [|reflexivity]. apply Qle_bool_iff in E. lra.
Qed.

Lemma analyze_colors_cases r g b : exists c, _analyze_colors r g b = [c] /\
  In c ["white"; "black"; "red"; "orange"; "purple"; "green"; "blue"; "gray"].
Proof.
  unfold _analyze_colors.
  repeat match goal with |- context [if ?c then _ else _] => destruct c end;
  eexists; (split; [reflexivity | simpl; tauto]).
Qed.

Lemma style_cases b c : In (_determine_style b c)
  ["high-key"; "bright"; "low-key"; "dark"; "dramatic"; "natural"].
Proof.
  unfold _determine_style.
  repeat match goal with |- context [if ?c then _ else _] => destruct c end; simpl; tauto.
Qed.

Lemma mood_cases cs b : In (_determine_mood cs b)
  ["warm"; "cozy"; "cool"; "mysterious"; "neutral"].
Proof.
  unfold _determine_mood.
  repeat match goal with |- context [if ?c then _ else _] => destruct c end; simpl; tauto.
Qed.

Lemma quality_cases w h : In (_assess_quality w h) [1; 4#5; 3#5; 2#5].
Proof.
  unfold _assess_quality.
  repeat match goal with |- context [if ?c then _ else _] => destruct c end; simpl; tauto.
Qed.

Ltac one_word H :=
  simpl in H; repeat (destruct H as [H|H]; [rewrite <- H; reflexivity|]); destruct H.

(** One colour, a one-word mood and style, a quality among five values. *)
Lemma analyze_image_shape img :
  let a := analyze_image img in
  length a.(dominant_colors) = 1%nat /\ length (split_ws a.(mood)) = 1%nat /\
  length (split_ws a.(style)) = 1%nat /\
  In a.(technical_quality) [1; 4#5; 3#5; 1#2; 2#5] /\
  (exists c, a.(dominant_colors) = [c] /\
     In c ["white"; "black"; "red"; "orange"; "purple"; "green"; "blue"; "gray"; "unknown"]).
Proof.
  intros a. unfold a, analyze_image.
  destruct img as [[w h [[r g] b] gm gs]|];
    [|vm_compute; repeat split; try (exists "unknown"; split; [reflexivity|]); intuition].
  cbn [width height rgb_mean gray_mean gray_stddev].
  destruct (_analyze_composition w h) as [comp|];
    [|vm_compute; repeat split; try (exists "unknown"; split; [reflexivity|]); intuition].
  cbn [dominant_colors mood style technical_quality].
  destruct (analyze_colors_cases r g b) as [c [Hc Hin]]. rewrite Hc.
  pose proof (style_cases (gm / 255) (gs / 128)) as Hs.
  pose proof (mood_cases [c] (gm / 255)) as Hm.
  pose proof (quality_cases w h) as Hq.
  split; [reflexivity|]. split; [one_word Hm|]. split; [one_word Hs|].
  split; [destruct Hq as [H|[H|[H|[H|[]]]]]; rewrite <- H; simpl; tauto|].
  exists c. split; [reflexivity|].
  destruct Hin as [H|[H|[H|[H|[H|[H|[H|[H|[]]]]]]]]]; subst c; simpl; tauto.
Qed.

(** A quality of 1.0 comes only from an opened image of at least 12 MP. *)
Lemma analyze_tq_one img :
  (analyze_image img).(technical_quality) = 1 ->
  exists st, img = Some st /\ (12000000 <= st.(width) * st.(height))%Z.
Proof.
  destruct img as [st|]; [|vm_compute; discriminate].
  destruct st as [w h [[r g] b] gm gs]. unfold analyze_image.
  cbn [width height rgb_mean gray_mean gray_stddev].
  destruct (_analyze_composition w h) as [comp|]; [|vm_compute; discriminate].
  cbn [technical_quality]. unfold _assess_quality.
  destruct (ge (inject_Z (w * h) / inject_Z 1000000) 12) eqn:E;
    [|repeat match goal with |- context [if ?c then _ else _] => destruct c end;
      discriminate].
  intros _. exists {| width := w; height := h; rgb_mean := (r, g, b);
                      gray_mean := gm; gray_stddev := gs |}.
  split; [reflexivity|]. cbn [width height].
  apply ge_true in E. unfold Qdiv in E.
  change (/ inject_Z 1000000) with (1 # 1000000) in E.
  rewrite Zle_Qle. change (inject_Z 12000000) with (12000000 # 1). lra.
Qed.

End AnalyzerFacts.

Module SeoFacts.
Import Pro Facts.

(** Without the keyword-count and description bonuses the score is at
    most [0.4 + 0.2 * technical_quality]. *)
Lemma seo_no_count_no_desc (m : Meta) (a : Enrich.ImageAnalysis) :
  (length (merged_keywords m "en,zh" 50) < 20)%nat ->
  Enrich.in_range 100 200 (String.length m.(description)) = false ->
  (Enrich._calculate_seo_score m a <= (2#5) + a.(Enrich.technical_quality) * (1#5))%Q.
Proof.
  intros H Hd. unfold Enrich._calculate_seo_score.
  assert (Hk : Enrich.in_range 20 50 (length (merged_keywords m "en,zh" 50)) = false).
  { unfold Enrich.in_range. apply andb_false_iff. left. apply Nat.leb_gt. exact H. }
  rewrite Hk, Hd.
  destruct (Enrich.in_range 30 60 (String.length m.(title)));
  destruct m.(trending_keywords);
  (eapply Qle_trans; [apply Q.le_min_l | lra]).
Qed.

Lemma tq_le_1 img : ((Analyzer.analyze_image img).(Enrich.technical_quality) <= 1)%Q.
Proof.
  destruct (AnalyzerFacts.analyze_image_shape img) as [_ [_ [_ [H _]]]].
  simpl in H. repeat (destruct H as [H|H]; [rewrite <- H; lra|]). destruct H.
Qed.

End SeoFacts.

(** ** [Meta._dedupe] and [MockAIGenerator] of stockmate.py *)

Module BasicFacts.

Lemma dedupe_from_clean items : forall seen,
  Forall (fun x => PyStr.strip x = x /\ String.length x <> 0%nat) (Basic._dedupe_from items seen).
Proof.
  induction items as [|k0 rest IH]; intros seen; simpl; [constructor|].
  destruct (String.length (PyStr.strip k0) =? 0)%nat eqn:E; [apply IH|].
  destruct (PyStr.mem (PyStr.lower (PyStr.strip k0)) seen); [apply IH|].
  constructor; [|apply IH].
  split; [apply StrFacts.strip_idem | apply Nat.eqb_neq; exact E].
Qed.

Lemma dedupe_from_fixed l : forall seen,
  Forall (fun x => PyStr.strip x = x /\ String.length x <> 0%nat) l ->
  NoDup (map PyStr.lower l) ->
  (forall x, In x l -> ~ In (PyStr.lower x) seen) ->
  Basic._dedupe_from l seen = l.
Proof.
  induction l as [|x r IH]; intros seen Hc Hn Hs; simpl; [reflexivity|].
  inversion Hc as [|? ? [Hx Hl] Hr]; subst.
  inversion Hn as [|? ? Hnin Hnr]; subst.
  rewrite Hx. apply Nat.eqb_neq in Hl. rewrite Hl.
  assert (Hm : PyStr.mem (PyStr.lower x) seen = false)
    by (apply Facts.mem_false_iff, Hs; left; reflexivity).
  rewrite Hm. f_equal. apply IH; auto.
  intros y Hy [Heq|Hin].
  - apply Hnin. rewrite Heq. apply in_map. exact Hy.
  - apply (Hs y); [right; exact Hy | exact Hin].
Qed.

(** A list of distinct keywords that [_dedupe] keeps unchanged. *)
Lemma dedupe_clean_id l :
  Forall (fun x => Checks.clean_kw x = true) l -> NoDup l -> Basic._dedupe l = l.
Proof.
  intros Hc Hn. unfold Basic._dedupe.
  assert (Hl : map PyStr.lower l = l).
  { rewrite <- (map_id l) at 2. apply map_ext_in. intros x Hx.
    rewrite Forall_forall in Hc. apply StrFacts.clean_kw_spec, Hc, Hx. }
  apply dedupe_from_fixed.
  - rewrite Forall_forall in Hc |- *. intros x Hx.
    destruct (StrFacts.clean_kw_spec x (Hc x Hx)) as [H1 [H2 _]].
    split; [exact H1|]. intros E. apply H2. destruct x; [reflexivity | discriminate].
  - rewrite Hl. exact Hn.
  - intros x _ [].
Qed.

End BasicFacts.

Module MockFacts.

Lemma string_length_of_list l : String.length (string_of_list_ascii l) = length l.
Proof. induction l as [|c r IH]; simpl; [reflexivity | rewrite IH; reflexivity]. Qed.

Lemma slice_to_incl {A} (l : list A) n x : In x (PyRe.slice_to l n) -> In x l.
Proof.
  unfold PyRe.slice_to. intros H.
  destruct (0 <=? n)%Z;
    [rewrite <- (firstn_skipn (Z.to_nat n) l) | rewrite <- (firstn_skipn (length l - Z.to_nat (- n)) l)];
    apply in_or_app; left; exact H.
Qed.

Lemma slice_to_nodup {A} (l : list A) n : NoDup l -> NoDup (PyRe.slice_to l n).
Proof.
  unfold PyRe.slice_to. intros H.
  destruct (0 <=? n)%Z;
    [rewrite <- (firstn_skipn (Z.to_nat n) l) in H | rewrite <- (firstn_skipn (length l - Z.to_nat (- n)) l) in H];
    eapply NoDup_app_remove_r; exact H.
Qed.

Lemma slice_to_length {A} (l : list A) n :
  (0 <= n)%Z -> (Z.of_nat (length (PyRe.slice_to l n)) <= n)%Z.
Proof.
  intros Hn. unfold PyRe.slice_to. apply Z.leb_le in Hn as Hb. rewrite Hb.
  rewrite length_firstn. lia.
Qed.

Lemma slice_to_length_le {A} (l : list A) n : (length (PyRe.slice_to l n) <= length l)%nat.
Proof. unfold PyRe.slice_to. destruct (0 <=? n)%Z; rewrite length_firstn; lia. Qed.

Lemma split_runs_chars (p : ascii -> bool) (P : ascii -> Prop) l : forall cur b,
  Forall P l -> Forall (fun c => P c /\ p c = false) cur ->
  Forall (fun t => Forall (fun c => P c /\ p c = false) (list_ascii_of_string t))
         (PyRe.split_runs p l cur b).
Proof.
  induction l as [|c r IH]; intros cur b Hl Hcur; simpl.
  - constructor; [|constructor].
    rewrite list_ascii_of_string_of_list_ascii. apply Forall_rev. exact Hcur.
  - inversion Hl as [|? ? Hc Hr]; subst. destruct (p c) eqn:E.
    + destruct b; [apply IH; auto|].
      constructor; [|apply IH; auto].
      rewrite list_ascii_of_string_of_list_ascii. apply Forall_rev. exact Hcur.
    + apply IH; auto.
Qed.

Lemma lower_chars s :
  Forall (fun c => ~ (65 <= nat_of_ascii c <= 90)%nat) (list_ascii_of_string (PyStr.lower s)).
Proof.
  induction s as [|c r IH]; simpl; constructor; [|exact IH].
  unfold PyStr.lower_char. cbv zeta.
  destruct ((65 <=? nat_of_ascii c) && (nat_of_ascii c <=? 90))%nat eqn:E.
  - apply andb_prop in E as [E1 E2]. apply Nat.leb_le in E1, E2.
    rewrite nat_ascii_embedding by lia. lia.
  - intros [H1 H2]. apply Nat.leb_le in H1, H2. rewrite H1, H2 in E. discriminate.
Qed.

Lemma lower_letter_props c :
  Checks.is_lower_letter c = true -> PyStr.is_space c = false /\ PyStr.lower_char c = c.
Proof.
  unfold Checks.is_lower_letter, PyStr.is_space, PyStr.lower_char. cbv zeta.
  intros H. apply andb_prop in H as [H1 H2]. apply Nat.leb_le in H1, H2.
  assert (E1 : (nat_of_ascii c =? 32)%nat = false) by (apply Nat.eqb_neq; lia).
  assert (E2 : (nat_of_ascii c <=? 13)%nat = false) by (apply Nat.leb_gt; lia).
  assert (E3 : (nat_of_ascii c <=? 31)%nat = false) by (apply Nat.leb_gt; lia).
  assert (E4 : (nat_of_ascii c <=? 90)%nat = false) by (apply Nat.leb_gt; lia).
  rewrite E1, E2, E3, E4, !andb_false_r. split; reflexivity.
Qed.

Lemma letters_clean t :
  (2 <= String.length t)%nat ->
  Forall (fun c => Checks.is_lower_letter c = true) (list_ascii_of_string t) ->
  Checks.clean_kw t = true.
Proof.
  intros Hlen H. unfold Checks.clean_kw.
  rewrite StrFacts.strip_nospace
    by (eapply Forall_impl; [|exact H]; intros c Hc; apply lower_letter_props, Hc).
  rewrite StrFacts.lower_id
    by (eapply Forall_impl; [|exact H]; intros c Hc; apply lower_letter_props, Hc).
  rewrite String.eqb_refl. destruct t; [simpl in Hlen; lia|]. reflexivity.
Qed.

Lemma dedupe_exact_spec l : forall seen,
  NoDup (Mock.dedupe_exact l seen) /\
  (forall x, In x (Mock.dedupe_exact l seen) -> In x l /\ ~ In x seen).
Proof.
  induction l as [|t r IH]; intros seen; simpl; [split; [constructor | tauto]|].
  destruct (PyStr.mem t seen) eqn:Hm.
  - destruct (IH seen) as [H1 H2]. split; [exact H1|].
    intros x Hx. destruct (H2 x Hx). split; [right|]; assumption.
  - apply Facts.mem_false_iff in Hm. destruct (IH (t :: seen)) as [H1 H2]. split.
    + constructor; [|exact H1]. intros Hin. apply (proj2 (H2 t Hin)). left. reflexivity.
    + intros x [<-|Hx]; [split; [left; reflexivity | exact Hm]|].
      destruct (H2 x Hx) as [Ha Hb]. split; [right; exact Ha|]. intros Hs. apply Hb. right. exact Hs.
Qed.

(** What [_english_keywords] returns, for every bound. *)
Lemma english_keywords_spec stem max_kw :
  let ks := Mock._english_keywords stem max_kw in
  NoDup ks /\
  Forall (fun t => (2 <= String.length t)%nat /\
             Forall (fun c => Checks.is_lower_letter c = true) (list_ascii_of_string t)) ks.
Proof.
  intros ks. unfold ks, Mock._english_keywords.
  set (raw := PyRe.split_runs PyRe.non_letter (list_ascii_of_string (PyStr.lower stem)) [] false).
  set (tokens := filter (fun t => (1 <? String.length t)%nat) raw).
  destruct (dedupe_exact_spec tokens []) as [Hnd Hin].
  split; [apply slice_to_nodup; exact Hnd|].
  apply Forall_forall. intros t Ht.
  apply slice_to_incl, Hin in Ht as [Ht _].
  unfold tokens in Ht. apply filter_In in Ht as [Ht Hlen].
  apply Nat.ltb_lt in Hlen. split; [lia|].
  pose proof (split_runs_chars PyRe.non_letter (fun c => ~ (65 <= nat_of_ascii c <= 90)%nat)
                (list_ascii_of_string (PyStr.lower stem)) [] false (lower_chars stem)
                (Forall_nil _)) as Hs.
  fold raw in Hs. rewrite Forall_forall in Hs. specialize (Hs t Ht).
  eapply Forall_impl; [|exact Hs]. intros c [Hu Hl].
  unfold PyRe.non_letter, Json.is_alpha in Hl. unfold Checks.is_lower_letter.
  apply negb_false_iff, orb_true_iff in Hl.
  destruct Hl as [Hl|Hl]; apply andb_prop in Hl as [Hl1 Hl2]; apply Nat.leb_le in Hl1, Hl2;
    [exfalso; lia|].
  apply andb_true_iff. split; apply Nat.leb_le; lia.
Qed.

Lemma dict_get_in {A} (k : string) (d : list (string * A)) v :
  Config.dict_get k d = Some v -> In v (map snd d).
Proof.
  induction d as [|[k' v'] r IH]; simpl; [discriminate|].
  destruct (String.eqb k k'); [intros H; injection H as <-; left; reflexivity|].
  intros H. right. apply IH, H.
Qed.

Lemma to_chinese_from_cons w r seen :
  Mock.to_chinese_from (w :: r) seen =
  (fun zh => if PyStr.mem zh seen then Mock.to_chinese_from r seen
             else zh :: Mock.to_chinese_from r (zh :: seen))
  (match Config.dict_get (PyStr.lower w) Mock.mapping with Some v => v | None => w end).
Proof. reflexivity. Qed.

Lemma to_chinese_spec kws : forall seen,
  let out := Mock.to_chinese_from kws seen in
  NoDup out /\ (length out <= length kws)%nat /\
  (forall z, In z out -> ~ In z seen /\ (In z (map snd Mock.mapping) \/ In z kws)).
Proof.
  induction kws as [|w r IH]; intros seen out; unfold out.
  { split; [constructor|]. split; [simpl; lia|]. intros z []. }
  rewrite to_chinese_from_cons.
  set (zh := match Config.dict_get (PyStr.lower w) Mock.mapping with
             | Some v => v | None => w end).
  assert (Hzh : In zh (map snd Mock.mapping) \/ zh = w).
  { unfold zh. destruct (Config.dict_get (PyStr.lower w) Mock.mapping) eqn:E;
      [left; eapply dict_get_in; exact E | right; reflexivity]. }
  cbv beta.
  destruct (PyStr.mem zh seen) eqn:Hm.
  - destruct (IH seen) as [H1 [H2 H3]]. split; [exact H1|]. split; [simpl; lia|].
    intros z Hz. destruct (H3 z Hz) as [Ha [Hb|Hb]]; split; auto; right; right; exact Hb.
  - apply Facts.mem_false_iff in Hm. destruct (IH (zh :: seen)) as [H1 [H2 H3]].
    split; [|split; [simpl; lia|]].
    + constructor; [|exact H1]. intros Hin. apply (proj1 (H3 zh Hin)). left. reflexivity.
    + intros z [<-|Hz].
      * split; [exact Hm|]. destruct Hzh as [Hzh|Hzh];
          [left; exact Hzh | right; left; symmetry; exact Hzh].
      * destruct (H3 z Hz) as [Ha Hb]. split.
        -- intros Hs. apply Ha. right. exact Hs.
        -- destruct Hb as [Hb|Hb]; [left; exact Hb | right; right; exact Hb].
Qed.

Lemma mapping_values_clean : Forall (fun x => Checks.clean_kw x = true) (map snd Mock.mapping).
Proof.
  apply Forall_forall. intros x Hx.
  assert (H : forallb Checks.clean_kw (map snd Mock.mapping) = true) by (vm_compute; reflexivity).
  rewrite forallb_forall in H. apply H, Hx.
Qed.

End MockFacts.

(** ** [_get_relevant_trending_keywords] and [TrendAnalyzer] *)

Module TrendFacts.
Import Pro Enrich Trends Checks.

Lemma relevance_score_nil ws : relevance_score [] ws = 0%nat.
Proof. reflexivity. Qed.

(** The shape of the trending list: the first five of the concatenated
    top-3 blocks of the relevant categories. *)
Lemma relevant_trending_shape keywords a :
  let r := _get_relevant_trending_keywords keywords a in
  (length r = 0 \/ length r = 3 \/ length r = 5)%nat /\ NoDup r /\
  (forall x, In x r -> In x (concat top3_blocks)).
Proof.
  intros r. unfold r, _get_relevant_trending_keywords, Config.TRENDING_KEYWORDS.
  cbn [fold_left].
  repeat match goal with |- context [if ?c then _ else _] => destruct c end;
  vm_compute; (split; [tauto|]); (split; [repeat constructor; simpl; intuition discriminate|]);
  intuition.
Qed.

Lemma counter_add_get k c x :
  Config.dict_get x (counter_add k c) =
  if String.eqb x k then Some (S (match Config.dict_get x c with Some n => n | None => 0%nat end))
  else Config.dict_get x c.
Proof.
  induction c as [|[k' n] r IH]; simpl.
  - destruct (String.eqb x k); reflexivity.
  - destruct (String.eqb k k') eqn:E1; simpl.
    + apply String.eqb_eq in E1; subst k'. destruct (String.eqb x k); reflexivity.
    + destruct (String.eqb x k') eqn:E2; [|exact IH].
      apply String.eqb_eq in E2; subst k'. rewrite String.eqb_sym, E1. reflexivity.
Qed.

Lemma counter_fold_get xs : forall c x,
  Config.dict_get x (fold_left (fun c k => counter_add k c) xs c) =
  match (match Config.dict_get x c with Some n => n | None => 0%nat end + count_occ string_dec xs x)%nat with
  | 0%nat => Config.dict_get x c
  | n => Some n
  end.
Proof.
  induction xs as [|k r IH]; intros c x; simpl.
  - rewrite Nat.add_0_r. destruct (Config.dict_get x c); [destruct n|]; reflexivity.
  - rewrite IH, counter_add_get.
    destruct (string_dec k x) as [<-|Hne].
    + rewrite String.eqb_refl. simpl. rewrite Nat.add_succ_r. reflexivity.
    + assert (E : String.eqb x k = false) by (apply String.eqb_neq; congruence).
      rewrite E. reflexivity.
Qed.

(** [Counter(xs)[x]] is the number of occurrences of [x] in [xs]. *)
Lemma counter_get xs x :
  Config.dict_get x (Counter xs) =
  if (count_occ string_dec xs x =? 0)%nat then None else Some (count_occ string_dec xs x).
Proof.
  unfold Counter. rewrite counter_fold_get. simpl.
  destruct (count_occ string_dec xs x); reflexivity.
Qed.

Lemma counter_add_sum k c : sum_counts (counter_add k c) = S (sum_counts c).
Proof.
  induction c as [|[k' n] r IH]; simpl; [reflexivity|].
  destruct (String.eqb k k'); simpl; lia.
Qed.

Lemma counter_sum xs : sum_counts (Counter xs) = length xs.
Proof.
  unfold Counter. rewrite <- (rev_involutive xs) at 2. rewrite length_rev.
  rewrite <- fold_left_rev_right.
  induction (rev xs) as [|k r IH]; simpl; [reflexivity|].
  rewrite counter_add_sum, IH. reflexivity.
Qed.

Lemma counter_add_keys k c :
  NoDup (map fst c) -> NoDup (map fst (counter_add k c)) /\
  (forall x, In x (map fst (counter_add k c)) <-> x = k \/ In x (map fst c)).
Proof.
  induction c as [|[k' n] r IH]; simpl; intros Hn.
  - split; [apply NoDup_cons; [intros []|apply NoDup_nil] | intros x; simpl; split; intros [H|[]]; left; congruence].
  - inversion Hn as [|? ? Hk Hr]; subst.
    destruct (String.eqb k k') eqn:E; simpl.
    + apply String.eqb_eq in E; subst k'. split; [exact Hn|]. intros x. split.
      * intros [H|H]; [left; congruence | right; right; exact H].
      * intros [H|[H|H]]; [left; congruence | left; exact H | right; exact H].
    + apply String.eqb_neq in E. destruct (IH Hr) as [H1 H2]. split.
      * constructor; [|exact H1]. rewrite H2. intros [->|Hin]; [congruence | tauto].
      * intros x. rewrite H2. split; intros H; intuition.
Qed.

(** The keys of a [Counter] are distinct. *)
Lemma counter_keys_nodup xs : NoDup (map fst (Counter xs)).
Proof.
  unfold Counter.
  assert (G : forall c, NoDup (map fst c) -> NoDup (map fst (fold_left (fun c k => counter_add k c) xs c))).
  { induction xs as [|k r IH]; intros c Hc; simpl; [exact Hc|].
    apply IH, counter_add_keys, Hc. }
  apply G. constructor.
Qed.

Lemma insert_desc_in p q l : In q (insert_desc p l) <-> q = p \/ In q l.
Proof.
  induction l as [|r l IH]; simpl.
  { split; intros [H|[]]; left; congruence. }
  destruct (snd r <? snd p)%nat; simpl.
  - split; (intros [H|H]; [left; congruence | right; exact H]).
  - rewrite IH. tauto.
Qed.

Lemma insert_desc_sorted p l : desc l -> desc (insert_desc p l).
Proof.
  unfold desc. induction l as [|r l IH]; simpl; intros H.
  - repeat constructor.
  - destruct (snd r <? snd p)%nat eqn:E.
    + apply Nat.ltb_lt in E. constructor; [exact H|]. constructor. lia.
    + apply Nat.ltb_ge in E. inversion H as [|? ? Hl Hr]; subst.
      constructor; [apply IH, Hl|].
      destruct l as [|r' l]; simpl; [constructor; exact E|].
      inversion Hr; subst.
      destruct (snd r' <? snd p)%nat; constructor; assumption.
Qed.

Lemma sorted_firstn n l : desc l -> desc (firstn n l).
Proof.
  unfold desc. revert l. induction n as [|n IH]; intros l H; [constructor|].
  destruct l as [|p l]; [constructor|]. simpl.
  inversion H as [|? ? Hl Hr]; subst. constructor; [apply IH, Hl|].
  destruct n; [constructor|]. destruct l as [|q l]; [constructor|].
  inversion Hr; subst. simpl. constructor. assumption.
Qed.

Lemma in_firstn {A} n (l : list A) x : In x (firstn n l) -> In x l.
Proof. intros H. rewrite <- (firstn_skipn n l). apply in_or_app. left. exact H. Qed.

(** [most_common(n)]: at most [n] entries, sorted by decreasing
    count, each an entry of the counter. *)
Lemma most_common_spec c n :
  let r := most_common c n in
  (length r <= n)%nat /\ desc r /\ (forall p, In p r -> In p c).
Proof.
  intros r. unfold r, most_common.
  assert (G : forall acc, desc acc ->
    desc (fold_left (fun acc p => insert_desc p acc) c acc) /\
    (forall p, In p (fold_left (fun acc p => insert_desc p acc) c acc) -> In p c \/ In p acc)).
  { induction c as [|q c IH]; intros acc Hacc; simpl; [split; [exact Hacc | tauto]|].
    destruct (IH (insert_desc q acc) (insert_desc_sorted q acc Hacc)) as [H1 H2].
    split; [exact H1|]. intros p Hp. destruct (H2 p Hp) as [Hc|Hi]; [tauto|].
    apply insert_desc_in in Hi.
    destruct Hi as [->|Hi]; [left; left; reflexivity | right; exact Hi]. }
  destruct (G [] (Sorted_nil _)) as [H1 H2].
  split; [rewrite length_firstn; lia|]. split; [apply sorted_firstn, H1|].
  intros p Hp. apply in_firstn in Hp. destruct (H2 p Hp) as [|[]]; assumption.
Qed.

Lemma trend_scores_of_some counts n :
  (n <> 0)%nat -> exists ts, trend_scores_of counts n = Some ts.
Proof.
  intros Hn. induction counts as [|[k c] r IH]; simpl; [eexists; reflexivity|].
  destruct IH as [ts Hts]. rewrite Hts. unfold py_div.
  apply Nat.eqb_neq in Hn. rewrite Hn. eexists. reflexivity.
Qed.

Lemma all_keywords_concat (ms : list Meta) : forall acc,
  fold_left (fun acc m => acc ++ m.(keywords_en) ++ m.(trending_keywords)) ms acc =
  acc ++ concat (map (fun m => m.(keywords_en) ++ m.(trending_keywords)) ms).
Proof.
  induction ms as [|m r IH]; intros acc; simpl; [rewrite app_nil_r; reflexivity|].
  rewrite IH, !app_assoc. reflexivity.
Qed.

Lemma fold_Qplus_bounds (xs : list Q) : forall a,
  Forall (fun x => 0 <= x <= 1)%Q xs ->
  (a <= fold_left Qplus xs a <= a + inject_Z (Z.of_nat (length xs)))%Q.
Proof.
  induction xs as [|x r IH]; intros a H.
  - simpl. unfold inject_Z. lra.
  - cbn [fold_left]. change (length (x :: r)) with (S (length r)).
    inversion H as [|? ? [Hx1 Hx2] Hr]; subst.
    destruct (IH (a + x)%Q Hr) as [H1 H2].
    rewrite Nat2Z.inj_succ, <- Z.add_1_l, inject_Z_plus. change (inject_Z 1) with 1%Q.
    split; lra.
Qed.

End TrendFacts.

(** ** Helpers: [for_image], [_fallback_metadata], [write_iptc], pathlib *)

Module PipeFacts.
Import Pro Enrich.
Local Open Scope Q_scope.

Lemma split_or_empty_le x :
  length (split_ws x) = 1%nat -> (length (Pipeline.split_or_empty x) <= 1)%nat.
Proof. intros H. unfold Pipeline.split_or_empty. destruct (String.eqb x ""); simpl; lia. Qed.

(** A base [Meta] carries at most three mood, style, colour and
    technical tags. *)
Lemma base_tags ans p img cfg k :
  (length (Pipeline._generate_base_metadata ans p (Analyzer.analyze_image img) cfg k).(mood_tags)
   + length (Pipeline._generate_base_metadata ans p (Analyzer.analyze_image img) cfg k).(style_tags)
   + length (Pipeline._generate_base_metadata ans p (Analyzer.analyze_image img) cfg k).(color_tags)
   + length (Pipeline._generate_base_metadata ans p (Analyzer.analyze_image img) cfg k).(technical_tags)
   <= 3)%nat.
Proof.
  destruct (AnalyzerFacts.analyze_image_shape img) as [Hc [Hmo [Hst _]]].
  unfold Pipeline._generate_base_metadata. destruct ans as [d|].
  - unfold Pipeline.base_from_fields. cbn [mood_tags style_tags color_tags technical_tags].
    pose proof (split_or_empty_le _ Hmo). pose proof (split_or_empty_le _ Hst).
    change (length (@nil string)) with 0%nat. lia.
  - unfold ProIO._fallback_metadata. cbn [mood_tags style_tags color_tags technical_tags].
    destruct (String.eqb (mood (Analyzer.analyze_image img)) "unknown");
    destruct (String.eqb (style (Analyzer.analyze_image img)) "unknown"); cbn [length]; lia.
Qed.

Lemma fallback_desc_short p img k :
  in_range 100 200
    (String.length (ProIO._fallback_metadata p (Analyzer.analyze_image img) k).(description))
  = false.
Proof.
  destruct (AnalyzerFacts.analyze_image_shape img) as [_ [_ [_ [_ [c [Hc Hin]]]]]].
  unfold ProIO._fallback_metadata. cbn [description]. rewrite Hc.
  simpl in Hin. repeat (destruct Hin as [<-|Hin]; [reflexivity|]). destruct Hin.
Qed.

Lemma enhance_seo_eq m a pl :
  (_enhance_with_seo m a pl).(seo_score) =
    _calculate_seo_score (set_trending m (_get_relevant_trending_keywords m.(keywords_en) a)) a /\
  (_enhance_with_seo m a pl).(market_potential) =
    _assess_market_potential
      (set_seo_score (set_trending m (_get_relevant_trending_keywords m.(keywords_en) a))
         (_calculate_seo_score (set_trending m (_get_relevant_trending_keywords m.(keywords_en) a)) a))
      a.
Proof. split; reflexivity. Qed.

Lemma tq_cases img :
  In (Analyzer.analyze_image img).(technical_quality) [1; 4#5; 3#5; 1#2; 2#5].
Proof. destruct (AnalyzerFacts.analyze_image_shape img) as [_ [_ [_ [H _]]]]. exact H. Qed.

Lemma for_image_opt ans p img platform k :
  Pipeline.for_image ans p img platform true k =
  _enhance_with_seo
    (Pipeline._generate_base_metadata ans p (Analyzer.analyze_image img)
       (Config.get_platform_config platform) k)
    (Analyzer.analyze_image img) platform.
Proof. reflexivity. Qed.

Lemma filter_all {A} (f : A -> bool) l : Forall (fun x => f x = true) l -> filter f l = l.
Proof.
  induction l as [|x r IH]; intros H; simpl; [reflexivity|].
  inversion H as [|? ? Hx Hr]; subst. rewrite Hx, IH by exact Hr. reflexivity.
Qed.

Lemma platform_max_keywords platform :
  Config.max_keywords (Config.get_platform_config platform) = 50%Z \/
  Config.max_keywords (Config.get_platform_config platform) = 49%Z.
Proof.
  unfold Config.get_platform_config, Config.PLATFORM_CONFIGS. cbn [Config.dict_get].
  repeat match goal with |- context [if ?c then _ else _] => destruct c end;
  first [left; reflexivity | right; reflexivity].
Qed.

Lemma string_of_list_app (a b : list ascii) :
  string_of_list_ascii (a ++ b) = (string_of_list_ascii a ++ string_of_list_ascii b)%string.
Proof. induction a as [|c r IH]; simpl; [reflexivity | rewrite IH; reflexivity]. Qed.

Lemma append_empty_r s : (s ++ "")%string = s.
Proof. induction s as [|c r IH]; simpl; [reflexivity | rewrite IH; reflexivity]. Qed.

Lemma rindex_of_spec c l : forall i found j,
  PyPath.rindex_of c l i found = Some j ->
  found = Some j \/ (i <= j /\ nth_error l (j - i) = Some c)%nat.
Proof.
  induction l as [|d r IH]; intros i found j H; simpl in H; [left; exact H|].
  destruct (IH _ _ _ H) as [H1|[H1 H2]].
  - destruct (Ascii.eqb c d) eqn:E.
    + right. injection H1 as <-. apply Ascii.eqb_eq in E. subst d.
      rewrite Nat.sub_diag. split; [lia | reflexivity].
    + left. exact H1.
  - right. split; [lia|]. replace (j - i)%nat with (S (j - S i)) by lia. exact H2.
Qed.

Lemma skipn_nth_error {A} (l : list A) j x :
  nth_error l j = Some x -> skipn j l = x :: skipn (S j) l.
Proof.
  revert j. induction l as [|y r IH]; intros j H; destruct j as [|j]; simpl in *;
    [discriminate | discriminate | injection H as <-; reflexivity | apply IH, H].
Qed.


End PipeFacts.

Module TokenFacts.


Lemma in_map_fst_nodup {A} (k : string) (v : A) l :
  NoDup (map fst l) -> In (k, v) l -> Config.dict_get k l = Some v.
Proof.
  induction l as [|[k' v'] r IH]; simpl; intros Hn Hin; [destruct Hin|].
  inversion Hn as [|? ? Hk Hr]; subst. destruct Hin as [Heq|Hin].
  - injection Heq as <- <-. rewrite String.eqb_refl. reflexivity.
  - destruct (String.eqb k k') eqn:E.
    + apply String.eqb_eq in E. subst k'. exfalso. apply Hk.
      apply (in_map fst) in Hin. exact Hin.
    + apply IH; assumption.
Qed.

Lemma counter_in xs k c :
  In (k, c) (Trends.Counter xs) -> c = count_occ string_dec xs k /\ (0 < c)%nat.
Proof.
  intros H. pose proof (in_map_fst_nodup k c _ (TrendFacts.counter_keys_nodup xs) H) as E.
  rewrite TrendFacts.counter_get in E.
  destruct (count_occ string_dec xs k =? 0)%nat eqn:Z; [discriminate|].
  injection E as <-. apply Nat.eqb_neq in Z. split; [reflexivity | lia].
Qed.

Lemma count_occ_filter_nonempty l k :
  k <> "" ->
  count_occ string_dec (filter (fun c => negb (String.eqb c "")) l) k = count_occ string_dec l k.
Proof.
  intros Hk. induction l as [|x r IH]; simpl; [reflexivity|].
  destruct (String.eqb x "") eqn:E; simpl.
  - apply String.eqb_eq in E. subst x. destruct (string_dec "" k); [congruence | exact IH].
  - destruct (string_dec x k); rewrite IH; reflexivity.
Qed.

Lemma analyze_batch_shape (ms : list Pro.Meta) : exists ts,
  Trends.analyze_batch_trends ms = Some {|
    Trends.top_keywords := Trends.most_common (Trends.Counter
      (concat (map (fun m => Pro.keywords_en m ++ Pro.trending_keywords m) ms))) 20;
    Trends.trend_scores := ts;
    Trends.top_categories := Trends.most_common (Trends.Counter
      (filter (fun c => negb (String.eqb c "")) (map Pro.category ms))) 10;
    Trends.avg_seo_score := Trends.np_mean (map Pro.seo_score ms);
    Trends.market_potential_distribution := Trends.Counter (map Pro.market_potential ms) |}.
Proof.
  unfold Trends.analyze_batch_trends. cbv zeta.
  rewrite TrendFacts.all_keywords_concat, app_nil_l.
  destruct ms as [|m0 r]; [exists []; reflexivity|].
  destruct (TrendFacts.trend_scores_of_some
              (Trends.Counter (concat (map (fun m => Pro.keywords_en m ++ Pro.trending_keywords m) (m0 :: r))))
              (length (m0 :: r))) as [ts Hts]; [simpl; lia|].
  rewrite Hts. exists ts. reflexivity.
Qed.

Lemma np_mean_unit (xs : list Q) :
  xs <> [] -> Forall (fun x => 0 <= x <= 1)%Q xs ->
  exists q, Trends.np_mean xs = Trends.Fin q /\ (0 <= q <= 1)%Q.
Proof.
  intros Hne Hf. destruct (TrendFacts.fold_Qplus_bounds xs 0 Hf) as [H1 H2].
  destruct xs as [|x r]; [congruence|].
  eexists; split; [reflexivity|].
  set (L := inject_Z (Z.of_nat (length (x :: r)))) in *.
  assert (HL : (0 < L)%Q) by (unfold L, Qlt, inject_Z; simpl; lia).
  split.
  - apply Qle_shift_div_l; [exact HL | lra].
  - apply Qle_shift_div_r; [exact HL | lra].
Qed.

End TokenFacts.

(* ================================================================= *)
(** ** Further properties of the code *)

(** [Meta.merged_keywords] (stockmate_pro.py): every keyword it returns
    is stripped and has 3 to 30 characters. *)
Theorem x_merged_keywords_clean (m : Pro.Meta) (lang_pref : string) (n : Z) :
  Forall (fun x => PyStr.strip x = x /\ (3 <= String.length x <= 30)%nat)
         (Pro.merged_keywords m lang_pref n).
Proof. exact (MergeFacts.merged_keywords_clean m lang_pref n). Qed.

(** [Meta.merged_keywords] (stockmate_pro.py): the result has at most as
    many keywords as the trending keywords, the first ten English
    keywords and the mood, style, colour and technical tags together;
    [keywords_zh] and the English keywords past the tenth never count. *)
Theorem x_merged_keywords_pool_bound (m : Pro.Meta) (lang_pref : string) (n : Z) :
  (length (Pro.merged_keywords m lang_pref n) <=
     length m.(Pro.trending_keywords) + Nat.min 10 (length m.(Pro.keywords_en))
     + length m.(Pro.mood_tags) + length m.(Pro.style_tags) + length m.(Pro.color_tags)
     + length m.(Pro.technical_tags))%nat.
Proof. exact (MergeFacts.merged_keywords_pool_bound m lang_pref n). Qed.

(** [_get_relevant_trending_keywords]: the result has 0, 3 or 5
    distinct entries, all among the first three words of the
    [TRENDING_KEYWORDS] categories, and it is empty when there are no
    keywords. *)
Theorem x_relevant_trending_shape (keywords : list string) (a : Enrich.ImageAnalysis) :
  let r := Enrich._get_relevant_trending_keywords keywords a in
  (length r = 0 \/ length r = 3 \/ length r = 5)%nat /\ NoDup r /\
  (forall x, In x r -> In x (concat Checks.top3_blocks)) /\
  Enrich._get_relevant_trending_keywords [] a = [].
Proof.
  intros r. destruct (TrendFacts.relevant_trending_shape keywords a) as [H1 [H2 H3]].
  split; [exact H1|]. split; [exact H2|]. split; [exact H3 | reflexivity].
Qed.

(** [EnhancedAIGenerator.for_image] with SEO optimisation: the SEO score
    is at most 0.8 (the 20 to 50 keyword bonus is never reached), and a
    "High" market potential needs an opened image of at least 12
    megapixels. *)
Theorem x_pipeline_seo_bound (ans : option Pipeline.AiFields) (p : PyPath.Path)
    (img : option Analyzer.ImageStats) (platform : string) (max_kw : Z) :
  let m := Pipeline.for_image ans p img platform true max_kw in
  (m.(Pro.seo_score) <= 4#5)%Q /\
  (m.(Pro.market_potential) = "High" ->
   exists st, img = Some st /\ (12000000 <= st.(Analyzer.width) * st.(Analyzer.height))%Z).
Proof.
  intros m. unfold m. rewrite PipeFacts.for_image_opt.
  pose proof (PipeFacts.base_tags ans p img (Config.get_platform_config platform) max_kw) as Ht.
  pose proof (SeoFacts.tq_le_1 img) as Hq.
  pose proof (PipeFacts.tq_cases img) as Hc.
  set (a := Analyzer.analyze_image img) in *.
  set (b := Pipeline._generate_base_metadata ans p a (Config.get_platform_config platform) max_kw) in *.
  pose proof (MergeFacts.enhance_merged_small b a ltac:(lia)) as Hs.
  pose proof (MergeFacts.seo_no_count_bonus _ a Hs) as Hb.
  destruct (PipeFacts.enhance_seo_eq b a platform) as [Es Ep].
  rewrite Es, Ep. split; [lra|].
  intros H. unfold Enrich._assess_market_potential in H.
  cbn [Pro.seo_score Enrich.set_seo_score] in H.
  match type of H with context [Qle_bool (4#5) ?s && Qle_bool (4#5) ?t] =>
    destruct (Qle_bool (4#5) s) eqn:E1; destruct (Qle_bool (4#5) t) eqn:E2 end;
    cbn [andb] in H;
    try (match type of H with context [if ?c then _ else _] => destruct c end;
         discriminate).
  apply Qle_bool_iff in E1.
  destruct Hc as [H1|[H1|[H1|[H1|[H1|[]]]]]];
    [| rewrite <- H1 in Hb; lra ..].
  apply AnalyzerFacts.analyze_tq_one. symmetry. exact H1.
Qed.

(** [EnhancedAIGenerator.for_image] when the model call fails and
    [_fallback_metadata] is used: the SEO score stays below 0.8 (the
    description is too short for its bonus and the keyword-count bonus
    is out of reach) and the market potential is never "High". *)
Theorem x_fallback_never_high (p : PyPath.Path) (img : option Analyzer.ImageStats)
    (platform : string) (max_kw : Z) :
  let m := Pipeline.for_image None p img platform true max_kw in
  (m.(Pro.seo_score) < 4#5)%Q /\ m.(Pro.market_potential) <> "High".
Proof.
  intros m. unfold m. rewrite PipeFacts.for_image_opt.
  pose proof (PipeFacts.base_tags None p img (Config.get_platform_config platform) max_kw) as Ht.
  pose proof (SeoFacts.tq_le_1 img) as Hq.
  pose proof (PipeFacts.fallback_desc_short p img max_kw) as Hd.
  set (a := Analyzer.analyze_image img) in *.
  set (b := Pipeline._generate_base_metadata None p a (Config.get_platform_config platform) max_kw) in *.
  pose proof (MergeFacts.enhance_merged_small b a ltac:(lia)) as Hs.
  pose proof (SeoFacts.seo_no_count_no_desc _ a Hs Hd) as Hb.
  destruct (PipeFacts.enhance_seo_eq b a platform) as [Es Ep].
  rewrite Es, Ep. split; [lra|].
  intros H. unfold Enrich._assess_market_potential in H.
  cbn [Pro.seo_score Enrich.set_seo_score] in H.
  match type of H with context [Qle_bool (4#5) ?s && Qle_bool (4#5) ?t] =>
    destruct (Qle_bool (4#5) s) eqn:E1; destruct (Qle_bool (4#5) t) eqn:E2 end;
    cbn [andb] in H;
    try (match type of H with context [if ?c then _ else _] => destruct c end;
         discriminate).
  apply Qle_bool_iff in E1. lra.
Qed.

(** [TrendAnalyzer.analyze_batch_trends] never raises, for any batch, and
    [market_potential_distribution] maps each market potential to the
    number of records that have it; its counts add up to the number of
    records. *)
Theorem x_batch_market_distribution (ms : list Pro.Meta) :
  exists r, Trends.analyze_batch_trends ms = Some r /\
  (forall v, Config.dict_get v r.(Trends.market_potential_distribution) =
     let n := count_occ string_dec (map Pro.market_potential ms) v in
     if (n =? 0)%nat then None else Some n) /\
  Checks.sum_counts r.(Trends.market_potential_distribution) = length ms.
Proof.
  destruct (TokenFacts.analyze_batch_shape ms) as [ts E].
  eexists. split; [exact E|]. cbn [Trends.market_potential_distribution]. split.
  - intros v. apply TrendFacts.counter_get.
  - rewrite TrendFacts.counter_sum, length_map. reflexivity.
Qed.

(** [TrendAnalyzer.analyze_batch_trends]: [top_keywords] has at most 20
    entries, [top_categories] at most 10, both sorted by decreasing
    count; each keyword entry carries its number of occurrences in the
    English and trending keywords of the batch, each category entry is a
    non-empty category with its number of records. *)
Theorem x_batch_top_lists (ms : list Pro.Meta) :
  exists r, Trends.analyze_batch_trends ms = Some r /\
  (length r.(Trends.top_keywords) <= 20)%nat /\ Checks.desc r.(Trends.top_keywords) /\
  (forall k c, In (k, c) r.(Trends.top_keywords) ->
     c = count_occ string_dec
           (concat (map (fun m => Pro.keywords_en m ++ Pro.trending_keywords m) ms)) k
     /\ (0 < c)%nat) /\
  (length r.(Trends.top_categories) <= 10)%nat /\ Checks.desc r.(Trends.top_categories) /\
  (forall k c, In (k, c) r.(Trends.top_categories) ->
     k <> "" /\ c = count_occ string_dec (map Pro.category ms) k /\ (0 < c)%nat).
Proof.
  destruct (TokenFacts.analyze_batch_shape ms) as [ts E].
  eexists. split; [exact E|]. cbn [Trends.top_keywords Trends.top_categories].
  destruct (TrendFacts.most_common_spec
              (Trends.Counter (concat (map (fun m => Pro.keywords_en m ++ Pro.trending_keywords m) ms))) 20)
    as [K1 [K2 K3]].
  destruct (TrendFacts.most_common_spec
              (Trends.Counter (filter (fun c => negb (String.eqb c "")) (map Pro.category ms))) 10)
    as [C1 [C2 C3]].
  split; [exact K1|]. split; [exact K2|].
  split; [intros k c H; apply TokenFacts.counter_in, K3, H|].
  split; [exact C1|]. split; [exact C2|].
  intros k c H. apply C3, TokenFacts.counter_in in H as [Hc Hpos].
  assert (Hk : k <> "").
  { intros ->. rewrite Hc in Hpos. apply (count_occ_In string_dec) in Hpos.
    apply filter_In in Hpos as [_ Hf]. rewrite String.eqb_refl in Hf. discriminate. }
  split; [exact Hk|]. split; [|exact Hpos].
  rewrite Hc. apply TokenFacts.count_occ_filter_nonempty, Hk.
Qed.

(** [TrendAnalyzer.analyze_batch_trends]: on a non-empty batch whose SEO
    scores lie in [0, 1], [avg_seo_score] is a number (not NaN) in
    [0, 1]. *)
Theorem x_batch_avg_seo_unit (ms : list Pro.Meta) :
  ms <> [] -> Forall (fun m => 0 <= m.(Pro.seo_score) <= 1)%Q ms ->
  exists r q, Trends.analyze_batch_trends ms = Some r /\
    r.(Trends.avg_seo_score) = Trends.Fin q /\ (0 <= q <= 1)%Q.
Proof.
  intros Hne Hf. destruct (TokenFacts.analyze_batch_shape ms) as [ts E].
  destruct (TokenFacts.np_mean_unit (map Pro.seo_score ms)) as [q [Hq1 Hq2]].
  - destruct ms; [congruence | discriminate].
  - apply Forall_map. exact Hf.
  - eexists. exists q. split; [exact E|]. split; [exact Hq1 | exact Hq2].
Qed.

Lemma x_batch_avg_seo_unit_witness :
  exists r q, Trends.analyze_batch_trends
      [Enrich.set_seo_score Inputs.tree_meta (1#2); Inputs.tree_meta;
       Enrich.set_seo_score Inputs.tree_trending_meta 1] = Some r /\
    r.(Trends.avg_seo_score) = Trends.Fin q /\ (0 <= q <= 1)%Q.
Proof.
  apply (x_batch_avg_seo_unit
           [Enrich.set_seo_score Inputs.tree_meta (1#2); Inputs.tree_meta;
            Enrich.set_seo_score Inputs.tree_trending_meta 1]); [discriminate|].
  repeat constructor; cbn; lra.
Defined.

(** [Meta._dedupe] (stockmate.py): every entry of the result is stripped
    and non-empty, and deduplicating again changes nothing. *)
Theorem x_basic_dedupe_idempotent (items : list string) :
  Forall (fun x => PyStr.strip x = x /\ x <> "") (Basic._dedupe items) /\
  Basic._dedupe (Basic._dedupe items) = Basic._dedupe items.
Proof.
  split.
  - eapply Forall_impl; [|apply BasicFacts.dedupe_from_clean].
    intros x [H1 H2]. split; [exact H1|]. intros ->. apply H2. reflexivity.
  - unfold Basic._dedupe at 1. apply BasicFacts.dedupe_from_fixed.
    + apply BasicFacts.dedupe_from_clean.
    + apply (proj2 (Facts.dedupe_from_inv items [])).
    + intros x _ [].
Qed.

(** [MockAIGenerator._english_keywords]: the keywords are distinct and
    each is a run of at least two lower-case ASCII letters. *)
Theorem x_mock_english_keywords (stem : string) (max_kw : Z) :
  let ks := Mock._english_keywords stem max_kw in
  NoDup ks /\
  Forall (fun t => (2 <= String.length t)%nat /\
             Forall (fun c => Checks.is_lower_letter c = true) (list_ascii_of_string t)) ks.
Proof. exact (MockFacts.english_keywords_spec stem max_kw). Qed.

(** [MockAIGenerator._english_keywords]: for a non-negative [max_kw]
    there are at most [max_kw] keywords. *)
Theorem x_mock_english_count (stem : string) (max_kw : Z) :
  (0 <= max_kw)%Z -> (Z.of_nat (length (Mock._english_keywords stem max_kw)) <= max_kw)%Z.
Proof. intros H. unfold Mock._english_keywords. apply MockFacts.slice_to_length, H. Qed.

Lemma x_mock_english_count_witness :
  (Z.of_nat (length (Mock._english_keywords "red-sunset over the sea" 2)) <= 2)%Z.
Proof. apply x_mock_english_count. lia. Defined.

(** [MockAIGenerator._to_chinese]: the result has no duplicates, is no
    longer than its input, and each entry is a value of [mapping] or an
    input keyword kept untranslated. *)
Theorem x_mock_to_chinese (kws_en : list string) :
  let zh := Mock._to_chinese kws_en in
  NoDup zh /\ (length zh <= length kws_en)%nat /\
  (forall z, In z zh -> In z (map snd Mock.mapping) \/ In z kws_en).
Proof.
  intros zh. destruct (MockFacts.to_chinese_spec kws_en []) as [H1 [H2 H3]].
  split; [exact H1|]. split; [exact H2|]. intros z Hz. apply (H3 z Hz).
Qed.

(** [MockAIGenerator.for_image]: its keyword lists are already what
    [merged_keywords] returns for "en" and for "zh", so [_dedupe] leaves
    them unchanged. *)
Theorem x_mock_keywords_deduped (p : PyPath.Path) (max_kw : Z) :
  let m := Mock.for_image p max_kw in
  Basic.merged_keywords m "en" = m.(Basic.keywords_en) /\
  Basic.merged_keywords m "zh" = m.(Basic.keywords_zh).
Proof.
  intros m.
  destruct (MockFacts.english_keywords_spec (PyPath.stem p) max_kw) as [Hnd Hl].
  assert (Hc : Forall (fun x => Checks.clean_kw x = true)
                 (Mock._english_keywords (PyPath.stem p) max_kw)).
  { eapply Forall_impl; [|exact Hl]. intros t [H1 H2]. apply MockFacts.letters_clean; assumption. }
  split.
  - change (Basic._dedupe (Mock._english_keywords (PyPath.stem p) max_kw)
            = Mock._english_keywords (PyPath.stem p) max_kw).
    apply BasicFacts.dedupe_clean_id; assumption.
  - change (Basic._dedupe (Mock._to_chinese (Mock._english_keywords (PyPath.stem p) max_kw))
            = Mock._to_chinese (Mock._english_keywords (PyPath.stem p) max_kw)).
    destruct (MockFacts.to_chinese_spec (Mock._english_keywords (PyPath.stem p) max_kw) [])
      as [Hz1 [_ Hz3]].
    apply BasicFacts.dedupe_clean_id; [|exact Hz1].
    apply Forall_forall. intros z Hz. destruct (Hz3 z Hz) as [_ [Hm|He]].
    + pose proof MockFacts.mapping_values_clean as Hv. rewrite Forall_forall in Hv. apply Hv, Hm.
    + rewrite Forall_forall in Hc. apply Hc, He.
Qed.

(** [MockAIGenerator.for_image] ([_slug_to_title]): the title has 1 to 60
    characters. *)
Theorem x_mock_title_length (p : PyPath.Path) (max_kw : Z) :
  (1 <= String.length (Mock.for_image p max_kw).(Basic.title) <= 60)%nat.
Proof.
  change (Mock.for_image p max_kw).(Basic.title) with (Mock._slug_to_title (PyPath.stem p)).
  unfold Mock._slug_to_title. cbv zeta.
  set (t := PyRe.str_slice_to _ 60).
  destruct (String.eqb t "") eqn:E; [simpl; lia|].
  apply String.eqb_neq in E. split.
  - destruct t; [congruence | simpl; lia].
  - unfold t, PyRe.str_slice_to. rewrite MockFacts.string_length_of_list.
    match goal with |- (length (PyRe.slice_to ?l 60) <= _)%nat =>
      pose proof (MockFacts.slice_to_length l 60 ltac:(lia)) end.
    lia.
Qed.

(** pathlib's [stem] and [suffix], as [write_iptc] and the generators use
    them: [stem + suffix] is the file name, and a non-empty suffix starts
    with a dot. *)
Theorem x_path_stem_suffix (p : PyPath.Path) :
  (PyPath.stem p ++ PyPath.suffix p)%string = PyPath.name p /\
  (PyPath.suffix p = "" \/ exists r, PyPath.suffix p = String "." r).
Proof.
  unfold PyPath.stem, PyPath.suffix.
  destruct (PyPath.suffix_index (PyPath.name p)) as [i|] eqn:E.
  - split.
    + rewrite <- PipeFacts.string_of_list_app, firstn_skipn, string_of_list_ascii_of_string.
      reflexivity.
    + right. unfold PyPath.suffix_index in E.
      destruct (PyPath.rindex_of "." (list_ascii_of_string (PyPath.name p)) 0 None) as [j|] eqn:Ej;
        [|discriminate].
      destruct (_ && _); [|discriminate]. injection E as <-.
      destruct (PipeFacts.rindex_of_spec _ _ _ _ _ Ej) as [H|[_ H]]; [discriminate|].
      rewrite Nat.sub_0_r in H. rewrite (PipeFacts.skipn_nth_error _ _ _ H).
      eexists. reflexivity.
  - split; [apply PipeFacts.append_empty_r | left; reflexivity].
Qed.

(** [_analyze_colors] and [_determine_mood]: an image gets exactly one
    dominant colour, never yellow, pink or brown, and its mood is
    "neutral" exactly when that colour is white, black or gray. *)
Theorem x_colors_and_mood (r g b brightness : Q) :
  exists c, Analyzer._analyze_colors r g b = [c] /\
    In c ["white"; "black"; "red"; "orange"; "purple"; "green"; "blue"; "gray"] /\
    (Analyzer._determine_mood [c] brightness = "neutral" <-> In c ["white"; "black"; "gray"]).
Proof.
  destruct (AnalyzerFacts.analyze_colors_cases r g b) as [c [Hc Hin]].
  exists c. split; [exact Hc|]. split; [exact Hin|].
  unfold Analyzer._determine_mood.
  remember (Analyzer.gt brightness (1#2)) as G eqn:HG. clear HG.
  simpl in Hin.
  repeat (destruct Hin as [<-|Hin];
          [simpl; destruct G; split; intros H; simpl in *;
           first [reflexivity | tauto | discriminate | intuition discriminate] |]).
  destruct Hin.
Qed.

(** [_analyze_composition]: turning a landscape image by a quarter turn
    gives a portrait one. *)
Theorem x_composition_transpose (w h : Z) :
  (0 < w)%Z -> (0 < h)%Z -> Analyzer._analyze_composition w h = Some "landscape" ->
  Analyzer._analyze_composition h w = Some "portrait".
Proof.
  intros Hw Hh. unfold Analyzer._analyze_composition.
  assert (E1 : (h =? 0)%Z = false) by (apply Z.eqb_neq; lia).
  assert (E2 : (w =? 0)%Z = false) by (apply Z.eqb_neq; lia).
  rewrite E1, E2. cbv zeta.
  assert (HW : (0 < inject_Z w)%Q) by (pose proof Hw as Hw'; rewrite Zlt_Qlt in Hw'; exact Hw').
  assert (HH : (0 < inject_Z h)%Q) by (pose proof Hh as Hh'; rewrite Zlt_Qlt in Hh'; exact Hh').
  intros H.
  assert (L : (3#2 < inject_Z w / inject_Z h)%Q).
  { destruct (Analyzer.lt (Qabs (inject_Z w / inject_Z h - 1)) (1#10)); [discriminate|].
    destruct (Analyzer.gt (inject_Z w / inject_Z h) (3#2)) eqn:G; [apply AnalyzerFacts.gt_true, G|].
    destruct (Analyzer.lt (inject_Z w / inject_Z h) (7#10)); discriminate. }
  assert (L' : ((3#2) * inject_Z h < inject_Z w)%Q).
  { apply Qnot_le_lt. intros C. apply (Qle_shift_div_r _ _ _ HH) in C. lra. }
  assert (P : (inject_Z h / inject_Z w < 7#10)%Q) by (apply Qlt_shift_div_r; [exact HW | lra]).
  assert (S : ~ (Qabs (inject_Z h / inject_Z w - 1) < 1#10)%Q).
  { pose proof (Qle_Qabs (- (inject_Z h / inject_Z w - 1))) as A.
    rewrite Qabs_opp in A. lra. }
  assert (F1 : Analyzer.lt (Qabs (inject_Z h / inject_Z w - 1)) (1#10) = false)
    by (unfold Analyzer.lt; apply AnalyzerFacts.gt_false; lra).
  assert (F2 : Analyzer.gt (inject_Z h / inject_Z w) (3#2) = false)
    by (apply AnalyzerFacts.gt_false; lra).
  assert (F3 : Analyzer.lt (inject_Z h / inject_Z w) (7#10) = true)
    by (unfold Analyzer.lt; apply AnalyzerFacts.gt_true; exact P).
  rewrite F1, F2, F3. reflexivity.
Qed.

Lemma x_composition_transpose_witness :
  Analyzer._analyze_composition 1000 3000 = Some "portrait".
Proof. apply x_composition_transpose; [lia | lia | reflexivity]. Defined.

(** [_assess_quality] grows with the pixel count: more pixels never give
    a lower technical quality. *)
Theorem x_assess_quality_monotone (w h w' h' : Z) :
  (w * h <= w' * h')%Z -> (Analyzer._assess_quality w h <= Analyzer._assess_quality w' h')%Q.
Proof.
  intros H. unfold Analyzer._assess_quality. cbv zeta.
  rewrite Zle_Qle in H.
  unfold Qdiv. change (/ inject_Z 1000000)%Q with (1#1000000)%Q.
  repeat match goal with |- context [if Analyzer.ge ?a ?b then _ else _] =>
    let E := fresh "E" in destruct (Analyzer.ge a b) eqn:E end;
  repeat match goal with
  | E : Analyzer.ge _ _ = true |- _ => apply AnalyzerFacts.ge_true in E
  | E : Analyzer.ge _ _ = false |- _ => apply AnalyzerFacts.ge_false in E
  end; lra.
Qed.

Lemma x_assess_quality_monotone_witness :
  (Analyzer._assess_quality 1000 1000 <= Analyzer._assess_quality 4000 3000)%Q.
Proof. apply x_assess_quality_monotone. lia. Defined.

(** [write_iptc]: it reports success exactly when the lower-cased suffix
    is .jpg, .jpeg, .tif or .tiff, ExifTool is found, and the ExifTool
    run completes with return code 0. *)
Theorem x_write_iptc_success (has_exiftool : bool) (run : list string -> ProIO.run_result)
    (img : PyPath.Path) (meta : Pro.Meta) (cfg : Config.PlatformConfig) :
  fst (ProIO.write_iptc has_exiftool run img meta cfg) = true <->
  In (PyStr.lower (PyPath.suffix img)) ProIO.IPTC_EXTS /\ has_exiftool = true /\
  exists out err, run (ProIO.iptc_cmd img meta cfg) = ProIO.Completed 0 out err.
Proof.
  unfold ProIO.write_iptc.
  destruct (PyStr.mem (PyStr.lower (PyPath.suffix img)) ProIO.IPTC_EXTS) eqn:Em;
    cbn [negb fst].
  2:{ split; [discriminate|]. intros [Hin _]. apply Facts.mem_false_iff in Em. contradiction. }
  apply Facts.mem_true_iff in Em.
  destruct has_exiftool; cbn [negb fst].
  2:{ split; [discriminate | intros [_ [H _]]; discriminate]. }
  destruct (run (ProIO.iptc_cmd img meta cfg)) as [rc out err|e] eqn:Er.
  - destruct (rc =? 0)%Z eqn:Erc; cbn [negb fst].
    + apply Z.eqb_eq in Erc. subst rc. split; [|reflexivity].
      intros _. split; [exact Em|]. split; [reflexivity|]. exists out, err. reflexivity.
    + split; [discriminate|]. intros [_ [_ [o [e' He]]]].
      injection He as Hrc _ _. subst rc. discriminate.
  - split; [discriminate|]. intros [_ [_ [o [e' He]]]]. discriminate.
Qed.

(** [write_iptc]: the ExifTool command passes one [-IPTC:Keywords=]
    argument per keyword of [merged_keywords(meta, "en,zh",
    max_keywords)], in that order (the empty-keyword filter drops
    nothing), and there are at most [max_keywords] (at most 50) of them. *)
Theorem x_iptc_keyword_args (img : PyPath.Path) (meta : Pro.Meta) (platform : string) :
  let cfg := Config.get_platform_config platform in
  let ks := Pro.merged_keywords meta "en,zh" cfg.(Config.max_keywords) in
  ProIO.iptc_cmd img meta cfg =
    ["exiftool"; "-overwrite_original";
     ("-IPTC:ObjectName=" ++ meta.(Pro.title))%string;
     ("-IPTC:Caption-Abstract=" ++ meta.(Pro.description))%string;
     ("-IPTC:Category=" ++ meta.(Pro.category))%string]
    ++ map (fun kw => ("-IPTC:Keywords=" ++ kw)%string) ks ++ [PyPath.path_str img] /\
  (Z.of_nat (length ks) <= cfg.(Config.max_keywords))%Z /\ (length ks <= 50)%nat.
Proof.
  intros cfg ks.
  pose proof (PipeFacts.platform_max_keywords platform) as Hmax. fold cfg in Hmax.
  pose proof (Facts.merged_keywords_length_pos meta "en,zh" cfg.(Config.max_keywords)
                ltac:(lia)) as Hlen. fold ks in Hlen.
  split; [|split; lia].
  unfold ProIO.iptc_cmd. fold ks. rewrite PipeFacts.filter_all; [reflexivity|].
  eapply Forall_impl; [|apply (MergeFacts.merged_keywords_clean meta "en,zh")].
  intros x [_ Hx]. destruct x; [simpl in Hx; lia | reflexivity].
Qed.


(** [_fallback_metadata]: for a non-negative [max_kw] it gives at most
    [max_kw // 2] English keywords. *)
Theorem x_fallback_keyword_count (p : PyPath.Path) (a : Enrich.ImageAnalysis) (max_kw : Z) :
  (0 <= max_kw)%Z ->
  (Z.of_nat (length (ProIO._fallback_metadata p a max_kw).(Pro.keywords_en)) <= max_kw / 2)%Z.
Proof.
  intros H. unfold ProIO._fallback_metadata. cbv zeta. cbn [Pro.keywords_en].
  apply MockFacts.slice_to_length. apply Z.div_pos; lia.
Qed.

Lemma x_fallback_keyword_count_witness :
  (Z.of_nat (length (ProIO._fallback_metadata
     {| PyPath.dir_parts := ["photos"]; PyPath.name := "my_photo of cats.jpg" |}
     (Analyzer.analyze_image None) 7).(Pro.keywords_en)) <= 7 / 2)%Z.
Proof. apply x_fallback_keyword_count. lia. Defined.
